(** * sigfox-aws: the Sigfox callback pipeline, embedded and verified

    The development follows the two source files of the repository:
    - [src/index.js], the AWS flavour of the cloud framework (device
      shadow operations, request and response wrapper);
    - [src/sigfoxCallback/index.js], the callback function itself
      ([getResponse], [saveMessage], [parseBool], [parseSIGFOXMessage],
      [task], [main]).

    JavaScript strings are modelled by [string]; every character is read
    as an ASCII code unit, which is the alphabet of Sigfox device ids,
    AWS thing names and of the callback body.  JavaScript numbers are
    modelled by exact decimals (type [number]); binary rounding is not
    modelled, the two agree on integers up to 2^53, which covers every
    timestamp in seconds or milliseconds. *)

From Stdlib Require Import ZArith String Ascii List Bool Lia.
From stdpp Require Import base option gmap strings fin_maps.

Local Open Scope string_scope.
Local Open Scope Z_scope.

(** ** Strings *)

Module JsString.

Definition isLower (c : ascii) : bool :=
  ((97 <=? N_of_ascii c) && (N_of_ascii c <=? 122))%N.

Definition isUpper (c : ascii) : bool :=
  ((65 <=? N_of_ascii c) && (N_of_ascii c <=? 90))%N.

Definition upperChar (c : ascii) : ascii :=
  if isLower c then ascii_of_N (N_of_ascii c - 32) else c.

Definition lowerChar (c : ascii) : ascii :=
  if isUpper c then ascii_of_N (N_of_ascii c + 32) else c.

Fixpoint mapChars (f : ascii -> ascii) (s : string) : string :=
  match s with
  | EmptyString => EmptyString
  | String c r => String (f c) (mapChars f r)
  end.

(** [String.prototype.toUpperCase] and [toLowerCase]. *)
Definition toUpperCase : string -> string := mapChars upperChar.
Definition toLowerCase : string -> string := mapChars lowerChar.

(** The comparison [a < b] of two one-character strings. *)
Definition charLt (a b : ascii) : bool := (N_of_ascii a <? N_of_ascii b)%N.

(** [s.replace(a, b)] for one-character [a] and [b]: the first
    occurrence only. *)
Fixpoint replace (a b : ascii) (s : string) : string :=
  match s with
  | EmptyString => EmptyString
  | String c r => if Ascii.eqb c a then String b r else String c (replace a b r)
  end.

Fixpoint chars (s : string) : list ascii :=
  match s with
  | EmptyString => nil
  | String c r => c :: chars r
  end.

End JsString.

Import JsString.

(** ** Numbers

    A finite number [Fin m k] stands for [m / 10^k]; it is kept in lowest
    terms by [mkFin] ([k = 0] or [m] not a multiple of ten), so that equal
    numbers are equal terms.  Integers are [Int z]. *)

Inductive number :=
  | NaN
  | Infinity (negative : bool)
  | Fin (m : Z) (k : nat).

Abbreviation Int z := (Fin z 0).

Module JsNumber.

Fixpoint mkFin (m : Z) (k : nat) : number :=
  match k with
  | O => Fin m 0
  | S k' => if m mod 10 =? 0 then mkFin (m / 10) k' else Fin m k
  end.

(** [m1 / 10^k1] and [m2 / 10^k2] over the common denominator. *)
Definition align (m1 : Z) (k1 : nat) (m2 : Z) (k2 : nat) : Z * Z * nat :=
  let k := Nat.max k1 k2 in
  (m1 * 10 ^ Z.of_nat (k - k1), m2 * 10 ^ Z.of_nat (k - k2), k).

(** [x * y] *)
Definition mul (x y : number) : number :=
  match x, y with
  | NaN, _ | _, NaN => NaN
  | Infinity a, Infinity b => Infinity (xorb a b)
  | Infinity a, Fin m _ | Fin m _, Infinity a =>
      if m =? 0 then NaN else Infinity (xorb a (m <? 0))
  | Fin m1 k1, Fin m2 k2 => mkFin (m1 * m2) (k1 + k2)
  end.

(** [x - y] *)
Definition sub (x y : number) : number :=
  match x, y with
  | NaN, _ | _, NaN => NaN
  | Infinity a, Infinity b => if eqb a b then NaN else Infinity a
  | Infinity a, Fin _ _ => Infinity a
  | Fin _ _, Infinity b => Infinity (negb b)
  | Fin m1 k1, Fin m2 k2 =>
      let '(a, b, k) := align m1 k1 m2 k2 in mkFin (a - b) k
  end.

(** [x > y]; any comparison with [NaN] is false. *)
Definition gt (x y : number) : bool :=
  match x, y with
  | NaN, _ | _, NaN => false
  | Infinity a, Infinity b => negb a && b
  | Infinity a, Fin _ _ => negb a
  | Fin _ _, Infinity b => b
  | Fin m1 k1, Fin m2 k2 =>
      let '(a, b, _) := align m1 k1 m2 k2 in b <? a
  end.

(** *** Decimal digits *)

Definition isDigit (c : ascii) : bool :=
  ((48 <=? N_of_ascii c) && (N_of_ascii c <=? 57))%N.

Definition digitValue (c : ascii) : Z := Z.of_N (N_of_ascii c) - 48.

Definition digitChar (d : Z) : ascii := ascii_of_N (Z.to_N (d + 48)).

Definition isDecimalDigit (d : Z) : Prop := 0 <= d <= 9.

(** The longest prefix of decimal digits, and what follows it. *)
Fixpoint digitsPrefix (s : string) : list Z * string :=
  match s with
  | String c r =>
      if isDigit c
      then let '(ds, rest) := digitsPrefix r in (digitValue c :: ds, rest)
      else (nil, s)
  | EmptyString => (nil, s)
  end.

Definition digitsValue (ds : list Z) : Z :=
  fold_left (fun acc d => 10 * acc + d) ds 0.

Fixpoint digitsFrom (fuel : nat) (n : Z) (acc : list Z) : list Z :=
  match fuel with
  | O => acc
  | S fuel' =>
      if n <? 10 then n :: acc
      else digitsFrom fuel' (n / 10) (n mod 10 :: acc)
  end.

(** The decimal digits of [n >= 0], most significant first. *)
Definition digitsOf (n : Z) : list Z :=
  digitsFrom (S (Z.to_nat (Z.log2 n))) n nil.

Fixpoint digitsString (ds : list Z) : string :=
  match ds with
  | nil => EmptyString
  | d :: r => String (digitChar d) (digitsString r)
  end.

Fixpoint stripTrailingZeros (ds : list Z) : list Z :=
  match ds with
  | nil => nil
  | d :: r =>
      match stripTrailingZeros r with
      | nil => if d =? 0 then nil else d :: nil
      | r' => d :: r'
      end
  end.

Definition zeros (n : nat) : list Z := repeat 0 n.

(** *** Number to string (the [Number::toString] algorithm, radix 10) *)

Definition positiveToString (ds : list Z) (k : nat) : string :=
  let s := stripTrailingZeros ds in
  let len := Z.of_nat (length s) in
  let n := Z.of_nat (length ds) - Z.of_nat k in
  if (len <=? n) && (n <=? 21) then
    digitsString (s ++ zeros (Z.to_nat (n - len)))%list
  else if (0 <? n) && (n <=? 21) then
    digitsString (firstn (Z.to_nat n) s) ++ "." ++
    digitsString (skipn (Z.to_nat n) s)
  else if (-6 <? n) && (n <=? 0) then
    "0." ++ digitsString (zeros (Z.to_nat (- n)) ++ s)%list
  else
    let e := n - 1 in
    let mantissa :=
      match s with
      | d :: (_ :: _) as r => digitsString (d :: nil) ++ "." ++ digitsString r
      | _ => digitsString s
      end in
    mantissa ++ "e" ++ (if e <? 0 then "-" else "+") ++
    digitsString (digitsOf (Z.abs e)).

Definition toString (x : number) : string :=
  match x with
  | NaN => "NaN"
  | Infinity neg => if neg then "-Infinity" else "Infinity"
  | Fin m k =>
      if m =? 0 then "0"
      else (if m <? 0 then "-" else "") ++
           positiveToString (digitsOf (Z.abs m)) k
  end.

(** *** String to number *)

(** White space and line terminators of the ASCII range. *)
Definition isWhiteSpace (c : ascii) : bool :=
  let n := N_of_ascii c in
  ((9 <=? n) && (n <=? 13) || (n =? 32))%N.

Fixpoint trimStart (s : string) : string :=
  match s with
  | String c r => if isWhiteSpace c then trimStart r else s
  | EmptyString => s
  end.

(** An optional sign: [true] for a minus. *)
Definition splitSign (s : string) : bool * string :=
  match s with
  | String "-" r => (true, r)
  | String "+" r => (false, r)
  | _ => (false, s)
  end.

(** [parseInt(s, 10)] on a string. *)
Definition parseInt (s : string) : number :=
  let '(neg, r) := splitSign (trimStart s) in
  match digitsPrefix r with
  | (nil, _) => NaN
  | (ds, _) => Int (if neg then - digitsValue ds else digitsValue ds)
  end.

(** The exponent part [e], [e+] or [e-] followed by digits, if any. *)
Definition exponentPart (s : string) : Z :=
  match s with
  | String c r =>
      if (Ascii.eqb c "e" || Ascii.eqb c "E")%bool then
        let '(neg, r') := splitSign r in
        match digitsPrefix r' with
        | (nil, _) => 0
        | (ds, _) => if neg then - digitsValue ds else digitsValue ds
        end
      else 0
  | EmptyString => 0
  end.

Definition startsWith (p s : string) : bool := String.prefix p s.

(** [parseFloat(s)] on a string. *)
Definition parseFloat (s : string) : number :=
  let '(neg, r) := splitSign (trimStart s) in
  if startsWith "Infinity" r then Infinity neg else
  let '(ip, r1) := digitsPrefix r in
  let '(fp, r2) :=
    match r1 with
    | String "." r1' => digitsPrefix r1'
    | _ => (nil, r1)
    end in
  match (ip ++ fp)%list with
  | nil => NaN
  | ds =>
      let m := if neg then - digitsValue ds else digitsValue ds in
      let e := exponentPart r2 - Z.of_nat (length fp) in
      if 0 <=? e then Int (m * 10 ^ e) else mkFin m (Z.to_nat (- e))
  end.

End JsNumber.

(** ** Values and objects

    The callback body is a flat object: its fields hold primitive values
    (the operator sends strings, [main] adds a numeric time stamp). *)

Inductive value :=
  | VUndefined
  | VNull
  | VBool (b : bool)
  | VNum (n : number)
  | VStr (s : string).

#[export] Instance number_eq_dec : EqDecision number.
Proof. solve_decision. Defined.

#[export] Instance value_eq_dec : EqDecision value.
Proof. solve_decision. Defined.

Abbreviation obj := (gmap string value).
Abbreviation loc := positive.

Module Js.

(** Truthiness ([ToBoolean]). *)
Definition ToBoolean (v : value) : bool :=
  match v with
  | VUndefined | VNull => false
  | VBool b => b
  | VNum NaN => false
  | VNum (Infinity _) => true
  | VNum (Fin m _) => negb (m =? 0)
  | VStr EmptyString => false
  | VStr _ => true
  end.

Definition ToString (v : value) : string :=
  match v with
  | VUndefined => "undefined"
  | VNull => "null"
  | VBool true => "true"
  | VBool false => "false"
  | VNum n => JsNumber.toString n
  | VStr s => s
  end.

(** [typeof v] *)
Definition typeof (v : value) : string :=
  match v with
  | VUndefined => "undefined"
  | VNull => "object"
  | VBool _ => "boolean"
  | VNum _ => "number"
  | VStr _ => "string"
  end.

(** [a === b] *)
Definition strictEq (a b : value) : bool :=
  match a, b with
  | VNum NaN, _ | _, VNum NaN => false
  | _, _ => bool_decide (a = b)
  end.

(** [a || b] *)
Definition or (a b : value) : value := if ToBoolean a then a else b.

(** [parseInt(v, 10)] and [parseFloat(v)]: the argument is first
    converted to a string. *)
Definition parseInt (v : value) : number := JsNumber.parseInt (ToString v).
Definition parseFloat (v : value) : number := JsNumber.parseFloat (ToString v).

(** The property read [o.k]: [undefined] for a missing key. *)
Definition get (o : obj) (k : string) : value := default VUndefined (o !! k).

End Js.

(** ** Errors

    [TooOld] is the stale-message error of [task]; [ResultLength] and
    [InvalidHexDigit] are the two downlink payload errors of
    [getResponse]; [MissingDeviceId] is raised by the device shadow
    operations; [TypeError] is the runtime's; [External] stands for a
    failure reported by a collaborator (queue transport, tracing). *)

Inductive error :=
  | TooOld (age : number)
  | ResultLength (result : string)
  | InvalidHexDigit (c : ascii)
  | MissingDeviceId
  | TypeError
  | External (what : string).

Definition isStaleMessage (e : error) : bool :=
  match e with TooOld _ => true | _ => false end.

Definition isInvalidDownlinkPayload (e : error) : bool :=
  match e with ResultLength _ | InvalidHexDigit _ => true | _ => false end.

(** The outcome of a call: a value, or an exception thrown. *)
Inductive result (A : Type) :=
  | Return (a : A)
  | Throw (e : error).
Arguments Return {A} a.
Arguments Throw {A} e.

(** The outcome of a promise once settled. *)
Inductive settled (A : Type) :=
  | Fulfilled (a : A)
  | Rejected (e : error).
Arguments Fulfilled {A} a.
Arguments Rejected {A} e.

(** ** Messages, queue targets, responses *)

Record message := Message {
  msg_device : value;
  msg_type : value;
  msg_body : loc;
  msg_query : option obj;
  msg_rootTraceId : value;
  msg_history : list obj;
  msg_isDispatched : value;
}.

(** [Object.assign({}, message, { isDispatched: true })] *)
Definition setDispatched (m : message) : message :=
  {| msg_device := msg_device m; msg_type := msg_type m;
     msg_body := msg_body m; msg_query := msg_query m;
     msg_rootTraceId := msg_rootTraceId m; msg_history := msg_history m;
     msg_isDispatched := VBool true |}.

(** A queue selector [{ device, type }]; a property left out of the
    object literal reads [VUndefined]. *)
Record queue := Queue { q_device : value; q_type : value }.

(** One entry of the response to Sigfox: [{ noData: true }] or
    [{ downlinkData: result }]. *)
Inductive downlink :=
  | NoData
  | DownlinkData (result : string).

(** What a promise of the callback can carry: a value, the response to
    Sigfox, or an error that a handler has returned in place of a value. *)
Inductive payload :=
  | PValue (v : value)
  | PResponse (r : gmap string downlink)
  | PError (e : error).

(** What the lambda hands to its callback in [done]. *)
Record httpResponse := HttpResponse {
  statusCode : value;
  responseBody : payload;
}.

(** The requests sent to AWS IoT by the device shadow operations. *)
Inductive iotCall :=
  | DescribeThing (thingName : string)
  | GetThingShadow (thingName : string)
  | UpdateThingShadow (thingName : string) (reported : obj).

(** ** State: the object store, the clock and the observable events *)

Inductive event :=
  | EvLog (action : string) (err : option error)
  | EvConsole
  | EvPublish (m : message) (device type : value)
  | EvDumpError (e : error)
  | EvEndTask
  | EvIot (c : iotCall)
  | EvDone (r : httpResponse).

Record state := State {
  heap : gmap loc obj;
  trace : list event;
  clock : nat -> Z;
  ticks : nat;
}.

Definition M (A : Type) : Type := state -> result A * state.

Definition ret {A} (a : A) : M A := fun s => (Return a, s).

Definition throw {A} (e : error) : M A := fun s => (Throw e, s).

Definition bind {A B} (f : A -> M B) (m : M A) : M B :=
  fun s => match m s with
           | (Return a, s') => f a s'
           | (Throw e, s') => (Throw e, s')
           end.

#[export] Instance M_ret : MRet M := @ret.
#[export] Instance M_bind : MBind M := @bind.

(** A callback of [.then] or [.catch]: an exception it throws rejects the
    promise it returns. *)
Definition callback {A} (m : M (settled A)) : M (settled A) :=
  fun s => match m s with
           | (Return p, s') => (Return p, s')
           | (Throw e, s') => (Return (Rejected e), s')
           end.

(** [p.then(f)] *)
Definition thenP {A B} (p : settled A) (f : A -> M (settled B)) : M (settled B) :=
  match p with
  | Fulfilled a => callback (f a)
  | Rejected e => ret (Rejected e)
  end.

(** [p.catch(h)] *)
Definition catchP {A} (p : settled A) (h : error -> M (settled A)) : M (settled A) :=
  match p with
  | Fulfilled a => ret (Fulfilled a)
  | Rejected e => callback (h e)
  end.

Definition emit (e : event) : M unit :=
  fun s => (Return tt, {| heap := heap s; trace := trace s ++ [e];
                          clock := clock s; ticks := ticks s |}).

(** [Date.now()] *)
Definition dateNow : M Z :=
  fun s => (Return (clock s (ticks s)),
            {| heap := heap s; trace := trace s;
               clock := clock s; ticks := S (ticks s) |}).

Definition setHeap (h : gmap loc obj) (s : state) : state :=
  {| heap := h; trace := trace s; clock := clock s; ticks := ticks s |}.

(** The object at [l]; a dangling reference reads as the empty object. *)
Definition objectAt (l : loc) (s : state) : obj := default ∅ (heap s !! l).

Definition readObject (l : loc) : M obj := fun s => (Return (objectAt l s), s).

(** [Object.assign({}, o)]: a new object with the fields of [o]. *)
Definition newObject (o : obj) : M loc :=
  fun s => let l := fresh (dom (heap s)) in
           (Return l, setHeap (<[l := o]> (heap s)) s).

(** [l.k] *)
Definition getProp (l : loc) (k : string) : M value :=
  fun s => (Return (Js.get (objectAt l s) k), s).

(** [l.k = v] *)
Definition setProp (l : loc) (k : string) (v : value) : M unit :=
  fun s => (Return tt, setHeap (<[l := <[k := v]> (objectAt l s)]> (heap s)) s).

(** [delete l.k] *)
Definition deleteProp (l : loc) (k : string) : M unit :=
  fun s => (Return tt, setHeap (<[l := delete k (objectAt l s)]> (heap s)) s).

(** ** The platform

    What the callback takes from its environment: the two cloud flags
    read from the process environment, and the collaborators of the
    [sigfox-iot-cloud] framework, the [uuid] package and the runtime
    whose code is outside the repository.  They are left arbitrary; an
    answer may depend on the state reached so far.  A call that returns
    a promise is given by the settlement of that promise: it fulfils or
    rejects, it does not throw. *)

Class Platform := {
  isGoogleCloud : bool;
  isAWS : bool;
  (** the settlement of [scloud.publishMessage(req, message, device, type)] *)
  publishMessage : state -> message -> value -> value -> settled value;
  (** [scloud.updateMessageHistory(req, message0, device)] *)
  updateMessageHistory : message -> value -> message;
  (** the settlement of [scloud.endTask(req)] *)
  endTask : state -> settled value;
  (** [scloud.startRootSpan(req).rootTrace.traceId] *)
  startRootSpan : state -> value;
  (** [uuid.v4()] *)
  uuid_v4 : state -> string;
  (** [new Date(t).toISOString()] *)
  toISOString : Z -> string;
}.

(** ** [src/index.js] *)

Module SigfoxAws.

(** [device0.length > 6 ? device0 : device0.toUpperCase()], the line
    shared by [createDevice], [getDeviceState], [updateDeviceState]. *)
Definition device (device0 : string) : string :=
  if (6 <? String.length device0)%nat then device0 else toUpperCase device0.

(** The guard and the normalization that open the three operations; a
    truthy value that is not a string has no [toUpperCase]. *)
Definition thingName (device0 : value) : M string :=
  if negb (Js.ToBoolean device0) then throw MissingDeviceId
  else match device0 with
       | VStr s => ret (device s)
       | _ => throw TypeError
       end.




(** [done(req, error, result, statusCode0, callback)] *)
Definition done (err : option error) (res : payload) (statusCode0 : value)
  : httpResponse :=
  {| statusCode :=
       Js.or statusCode0
         (VNum (match err with Some _ => Int 500 | None => Int 200 end));
     responseBody := match err with Some e => PError e | None => res end |}.

(** [res.status(code).json(obj).end()] of the response object built by
    [init]. *)
Definition respond (code : value) (o : payload) : M unit :=
  emit (EvDone (done None o code)).

End SigfoxAws.

(** ** [src/sigfoxCallback/index.js] *)

Module SigfoxCallback.
Section Wrap.

Context {platform : Platform}.

(** [scloud] is [null] when neither cloud is detected; reading a
    property of it then fails. *)
Definition scloud : M unit :=
  if isGoogleCloud || isAWS then ret tt else throw TypeError.

(** [scloud.log(req, action, para)], [para.error] when there is one. *)
Definition log (action : string) (err : option error) : M unit :=
  scloud;; emit (EvLog action err).

(** [scloud.dumpError]: reports the error and returns it. *)
Definition dumpError (e : error) : M (settled payload) :=
  scloud;; emit (EvDumpError e);; ret (Fulfilled (PError e)).

(** The test applied to each character [s] of the result:
    [s[0] < '0' || s[0] > 'f' || (s[0] > '9' && s[0] < 'a')]. *)
Definition badHexDigit (s : ascii) : bool :=
  charLt s "0" || charLt "f" s || (charLt "9" s && charLt s "a").

(** [Array.from(...).forEach((s) => { if (...) throw ... })] *)
Fixpoint checkDigits (cs : list ascii) : M unit :=
  match cs with
  | nil => ret tt
  | s :: r =>
      (if badHexDigit s then throw (InvalidHexDigit s) else ret tt);;
      checkDigits r
  end.

(** The two checks of [getResponse] on the downlink result. *)
Definition checkResult (result : string) : M unit :=
  (if negb (String.length result =? 16)%nat
   then throw (ResultLength result) else ret tt);;
  checkDigits (chars (toLowerCase result)).

(** [getResponse], for a given downlink [result]. *)
Definition getResponseFor (result : string) (device0 : value) (body : loc)
  : M (settled (gmap string downlink)) :=
  let device := Js.or device0 (VStr "missing_device") in
  ack ← getProp body "ack";
  if Js.strictEq ack (VBool false) || Js.strictEq ack (VStr "false") then
    ret (Fulfilled (<[Js.ToString device := NoData]> ∅))
  else
    checkResult result;;
    ret (Fulfilled (<[Js.ToString device := DownlinkData result]> ∅)).

(** [getResponse(req, device0, body)]: the result is the constant of
    the source. *)
Definition getResponse : value -> loc -> M (settled (gmap string downlink)) :=
  getResponseFor "0123456789abcdef".

(** The queue selectors of [saveMessage]. *)
Definition queues (device type : value) : list queue :=
  if isGoogleCloud then
    [Queue (VStr "all") VUndefined]
    ++ (if Js.ToBoolean type then [Queue VUndefined type] else [])
    ++ (if Js.ToBoolean device then [Queue device VUndefined] else [])
  else if isAWS then [Queue VNull VNull]
  else [].

(** The loop of [saveMessage]: every publish is started, in order. *)
Fixpoint startPublishes (m : message) (qs : list queue)
  : M (list (settled value)) :=
  match qs with
  | nil => ret nil
  | q :: r =>
      p ← (fun s => (Return (publishMessage s m (q_device q) (q_type q)), s));
      emit (EvPublish m (q_device q) (q_type q));;
      ps ← startPublishes m r;
      ret (p :: ps)
  end.

(** The [.catch] put on each publish: the error is logged and returned,
    so the promise is fulfilled. *)
Definition suppress (p : settled value) : M (settled payload) :=
  match p with
  | Fulfilled v => ret (Fulfilled (PValue v))
  | Rejected e =>
      callback (log "saveMessage" (Some e);; ret (Fulfilled (PError e)))
  end.

(** [Promise.all(promises)] *)
Fixpoint promiseAll {A} (ps : list (settled A)) : settled (list A) :=
  match ps with
  | nil => Fulfilled nil
  | Fulfilled a :: r =>
      match promiseAll r with
      | Fulfilled l => Fulfilled (a :: l)
      | Rejected e => Rejected e
      end
  | Rejected e :: _ => Rejected e
  end.

Fixpoint mapM {A B} (f : A -> M B) (l : list A) : M (list B) :=
  match l with
  | nil => ret nil
  | a :: r => b ← f a; bs ← mapM f r; ret (b :: bs)
  end.

(** The second half of [saveMessage]: the message is published to each
    queue of the list, the publishes are awaited together, and the
    message is returned with its dispatch flag set. *)
Definition publishAll (m : message) (qs : list queue)
  : M (settled message) :=
  started ← startPublishes m qs;
  promises ← mapM suppress started;
  p ← thenP (promiseAll promises) (fun _ =>
        log "saveMessage" None;; ret (Fulfilled tt));
  p ← thenP p (fun _ => ret (Fulfilled (setDispatched m)));
  catchP p (fun e => throw e).

(** *** The same chain while publishes are pending

    [saveMessage] hands out its promise before the publishes have
    settled.  What that promise waits for is read off the same lines at
    an arbitrary moment: the promise of a publish is then still pending
    ([None]) or settled, the callback of a pending promise has not run,
    and a promise derived from pending ones is pending. *)

(** [Promise.all(promises)] at such a moment: rejected as soon as one
    promise is rejected, fulfilled once every promise is fulfilled,
    pending otherwise. *)
Fixpoint promiseAllAt {A} (ps : list (option (settled A)))
  : option (settled (list A)) :=
  match ps with
  | nil => Some (Fulfilled nil)
  | p :: r =>
      match p, promiseAllAt r with
      | Some (Rejected e), _ => Some (Rejected e)
      | _, Some (Rejected e) => Some (Rejected e)
      | Some (Fulfilled a), Some (Fulfilled l) => Some (Fulfilled (a :: l))
      | _, _ => None
      end
  end.

(** [p.then(f)] at such a moment. *)
Definition thenAt {A B} (p : option (settled A)) (f : A -> M (settled B))
  : M (option (settled B)) :=
  match p with
  | Some p => q ← thenP p f; ret (Some q)
  | None => ret None
  end.

(** [p.catch(h)] at such a moment. *)
Definition catchAt {A} (p : option (settled A)) (h : error -> M (settled A))
  : M (option (settled A)) :=
  match p with
  | Some p => q ← catchP p h; ret (Some q)
  | None => ret None
  end.

(** The [.catch] put on each publish, at such a moment. *)
Definition suppressAt (p : option (settled value))
  : M (option (settled payload)) :=
  match p with
  | Some p => q ← suppress p; ret (Some q)
  | None => ret None
  end.

(** The promise that [saveMessage] returns, at a moment when the
    promises of its publishes are as [arrived]. *)
Definition publishAllAt (m : message) (arrived : list (option (settled value)))
  : M (option (settled message)) :=
  promises ← mapM suppressAt arrived;
  p ← thenAt (promiseAllAt promises) (fun _ =>
        log "saveMessage" None;; ret (Fulfilled tt));
  p ← thenAt p (fun _ => ret (Fulfilled (setDispatched m)));
  catchAt p (fun e => throw e).

(** [saveMessage(req, device, type, body, rootTraceId)] *)
Definition saveMessage (query : option obj) (device type : value)
    (body : loc) (rootTraceId : value) : M (settled message) :=
  log "saveMessage" None;;
  let message0 :=
    {| msg_device := device; msg_type := type; msg_body := body;
       msg_query := query; msg_rootTraceId := rootTraceId;
       msg_history := []; msg_isDispatched := VUndefined |} in
  let message := updateMessageHistory message0 device in
  publishAll message (queues device type).

(** [parseBool(s)] *)
Definition parseBool (s : value) : value :=
  VBool (Js.strictEq s (VStr "true")).

(** [if (body.k) body.k = f(body.k);] *)
Definition convert (body : loc) (k : string) (f : value -> value) : M unit :=
  v ← getProp body k;
  if Js.ToBoolean v then
    v ← getProp body k; setProp body k (f v)
  else ret tt.

(** [parseSIGFOXMessage(req, body0)] *)
Definition parseSIGFOXMessage (body0 : loc) : M loc :=
  fields ← readObject body0;
  body ← newObject fields;
  time ← getProp body "time";
  (if Js.ToBoolean time then
     let t := Js.parseInt time in
     setProp body "time" (VNum t);;
     setProp body "timestamp"
       (VStr (JsNumber.toString (JsNumber.mul t (Int 1000))));;
     setProp body "baseStationTime" (VNum t);;
     deleteProp body "time"
   else ret tt);;
  convert body "duplicate" parseBool;;
  convert body "snr" (fun v => VNum (Js.parseFloat v));;
  convert body "avgSnr" (fun v => VNum (Js.parseFloat v));;
  convert body "lat" (fun v => VNum (Js.parseInt v));;
  convert body "lng" (fun v => VNum (Js.parseInt v));;
  convert body "rssi" (fun v => VNum (Js.parseFloat v));;
  convert body "seqNumber" (fun v => VNum (Js.parseInt v));;
  convert body "ack" parseBool;;
  convert body "longPolling" parseBool;;
  ret body.

(** The freshness test of [task]:
    [if (isAWS && body.baseStationTime) { ... throw ... }]. *)
Definition checkAge (body : loc) : M unit :=
  bst ← getProp body "baseStationTime";
  if isAWS && Js.ToBoolean bst then
    bst ← getProp body "baseStationTime";
    let baseStationTime := Js.parseInt bst in
    now ← dateNow;
    let age := JsNumber.sub (Int now) (JsNumber.mul baseStationTime (Int 1000)) in
    emit EvConsole;;
    if JsNumber.gt age (Int (5 * 60 * 1000)) then throw (TooOld age)
    else ret tt
  else ret tt.

(** [task(req, device, body0, msg)].  [result] is the variable assigned
    by the first [.then]; the response composed by [getResponse] is the
    value of the second promise only, and the value passed to [res.json]
    is the one the promise of [endTask] settles to. *)
Definition task (query : option obj) (device : value) (body0 : loc)
    (msg : message) : M (settled (option message)) :=
  let type := msg_type msg in
  let rootTraceId := msg_rootTraceId msg in
  body ← parseSIGFOXMessage body0;
  checkAge body;;
  saved ← saveMessage query device type body rootTraceId;
  let result := match saved with Fulfilled m => Some m | Rejected _ => None end in
  p ← thenP saved (fun _ =>
        r ← getResponse device body0;
        ret match r with
            | Fulfilled response => Fulfilled (PResponse response)
            | Rejected e => Rejected e
            end);
  p ← catchP p dumpError;
  p ← thenP p (fun _ => log "result" None;; ret (Fulfilled tt));
  p ← thenP p (fun _ =>
        scloud;;
        ended ← (fun s => (Return (endTask s), s));
        emit EvEndTask;;
        catchP match ended with
               | Fulfilled v => Fulfilled (PValue v)
               | Rejected e => Rejected e
               end dumpError);
  p ← thenP p (fun response =>
        SigfoxAws.respond (VNum (Int 204)) response;; ret (Fulfilled tt));
  thenP p (fun _ => ret (Fulfilled result)).

(** [v.toUpperCase()]: only a string has the method. *)
Definition callToUpperCase (v : value) : M value :=
  match v with
  | VStr d => ret (VStr (toUpperCase d))
  | _ => throw TypeError
  end.

(** The device id of [main]:
    [(body.device && typeof body.device === 'string')
       ? body.device.toUpperCase()
       : req.query.device ? req.query.device.toUpperCase() : null];
    [req.query] may be undefined. *)
Definition mainDevice (body_device : value) (query : option obj) : M value :=
  if Js.ToBoolean body_device && (Js.typeof body_device =? "string")%string then
    callToUpperCase body_device
  else
    match query with
    | None => throw TypeError
    | Some q =>
        if Js.ToBoolean (Js.get q "device")
        then callToUpperCase (Js.get q "device")
        else ret VNull
    end.

(** [main], from the request that [scloud.init] returns: its parsed
    body, if any, and its query. *)
Definition main (req_body : option loc) (req_query : option obj)
  : M (settled (option message)) :=
  emit EvConsole;;
  scloud;;
  _ ← dateNow;
  rootTraceId ← (fun s => (Return (startRootSpan s), s));
  let type :=
    match req_query with
    | Some q => Js.or (Js.get q "type") VNull
    | None => VNull
    end in
  uuid0 ← (fun s => (Return (uuid_v4 s), s));
  callbackTimestamp ← dateNow;
  let datetime :=
    substring 0 19 (replace "T" " " (toISOString callbackTimestamp)) in
  let localdatetime :=
    substring 0 19
      (replace "T" " " (toISOString (callbackTimestamp + 8 * 60 * 60 * 1000))) in
  sent ← match req_body with
         | Some l => readObject l
         | None => ret ∅
         end;
  body ← newObject
           (sent ∪ <["uuid" := VStr uuid0]>
                   (<["datetime" := VStr datetime]>
                   (<["localdatetime" := VStr localdatetime]>
                   (<["callbackTimestamp" := VNum (Int callbackTimestamp)]> ∅))));
  body_device ← getProp body "device";
  device ← mainDevice body_device req_query;
  let oldMessage :=
    {| msg_device := device; msg_type := type; msg_body := body;
       msg_query := None; msg_rootTraceId := rootTraceId;
       msg_history := []; msg_isDispatched := VUndefined |} in
  log "start" None;;
  p ← task req_query device body oldMessage;
  p ← thenP p (fun r => ret (Fulfilled r));
  p ← catchP p (fun e => _ ← dumpError e; ret (Fulfilled (Some oldMessage)));
  thenP p (fun updatedMessage => ret (Fulfilled updatedMessage)).

End Wrap.
End SigfoxCallback.

Import SigfoxCallback.

(** ** Observations and sample platforms *)

(** The queue selectors of the publish calls of a trace, in order. *)
Fixpoint published (t : list event) : list queue :=
  match t with
  | nil => nil
  | EvPublish _ d ty :: r => Queue d ty :: published r
  | _ :: r => published r
  end.

(** The sixteen lower-case hexadecimal digits. *)
Definition hexDigits : list ascii := chars "0123456789abcdef".

(** A downlink payload of 8 bytes in hexadecimal, once lower-cased. *)
Definition validPayload (result : string) : Prop :=
  String.length (toLowerCase result) = 16%nat /\
  Forall (fun c => c ∈ hexDigits) (chars (toLowerCase result)).

(** The key of the response: the device id, or the sentinel when the
    device id is null, undefined or empty. *)
Definition responseKey (device0 : value) : string :=
  if Js.ToBoolean device0 then Js.ToString device0 else "missing_device".

(** [body.ack === false || body.ack === 'false'] *)
Definition noDownlink (ack : value) : bool :=
  Js.strictEq ack (VBool false) || Js.strictEq ack (VStr "false").

(** Three queue selectors and a message to publish to them. *)
Definition sampleQueues : list queue :=
  [Queue (VStr "all") VUndefined; Queue VUndefined (VStr "gps");
   Queue (VStr "1A2345") VUndefined].

Definition sampleMessage : message :=
  {| msg_device := VStr "1A2345"; msg_type := VStr "gps"; msg_body := 1%positive;
     msg_query := None; msg_rootTraceId := VStr "trace-1";
     msg_history := []; msg_isDispatched := VUndefined |}.

(** The errors logged in a trace, in order. *)
Fixpoint logged (t : list event) : list error :=
  match t with
  | nil => nil
  | EvLog _ (Some e) :: r => e :: logged r
  | _ :: r => logged r
  end.

(** The errors of the rejected promises of a list, in order. *)
Fixpoint rejections {A} (ps : list (settled A)) : list error :=
  match ps with
  | nil => nil
  | Rejected e :: r => e :: rejections r
  | Fulfilled _ :: r => rejections r
  end.

(** The HTTP responses of a trace. *)
Fixpoint responses (t : list event) : list httpResponse :=
  match t with
  | nil => nil
  | EvDone r :: t' => r :: responses t'
  | _ :: t' => responses t'
  end.

(** A state whose clock reads [now] at every call. *)
Definition stateAt (now : Z) (h : gmap loc obj) : state :=
  {| heap := h; trace := []; clock := fun _ => now; ticks := 0 |}.

(** An AWS Lambda deployment whose collaborators all succeed. *)
Definition awsLambda : Platform :=
  {| isGoogleCloud := false;
     isAWS := true;
     publishMessage := fun _ _ _ _ => Fulfilled VUndefined;
     updateMessageHistory := fun m _ => m;
     endTask := fun _ => Fulfilled VUndefined;
     startRootSpan := fun _ => VStr "trace-1";
     uuid_v4 := fun _ => "df0cbceb-00f3-4be2-add1-a32ffdee9773";
     toISOString := fun _ => "2017-11-26T16:47:07.000Z" |}.

(** A Google Cloud deployment on which the queue of every type is out
    of order: a publish with a type selector is rejected. *)
Definition googleCloud : Platform :=
  {| isGoogleCloud := true;
     isAWS := false;
     publishMessage := fun _ _ _ ty =>
       if Js.ToBoolean ty then Rejected (External "topic not found")
       else Fulfilled VUndefined;
     updateMessageHistory := fun m _ => m;
     endTask := fun _ => Fulfilled VUndefined;
     startRootSpan := fun _ => VStr "trace-1";
     uuid_v4 := fun _ => "df0cbceb-00f3-4be2-add1-a32ffdee9773";
     toISOString := fun _ => "2017-11-26T16:47:07.000Z" |}.

(** The body of the test event of the source. *)
Definition testBody : obj :=
  list_to_map
    [("device", VStr "1A2345"); ("data", VStr "b0513801a421f0019405a500");
     ("time", VStr "1511714827"); ("duplicate", VStr "false");
     ("snr", VStr "18.86"); ("station", VStr "1D44");
     ("avgSnr", VStr "15.54"); ("lat", VStr "1"); ("lng", VStr "104");
     ("rssi", VStr "-123.00"); ("seqNumber", VStr "1508");
     ("ack", VStr "false"); ("longPolling", VStr "false")].

(** Sample states: the store holds one received body, at location 1. *)
Definition received (now : Z) (body : obj) : state :=
  stateAt now {[ 1%positive := body ]}.

(** The test event, one minute after its base station time. *)
Definition testEvent : state := received 1511714887000 testBody.

(** An event whose base station time is sixteen years behind the clock. *)
Definition staleEvent : state :=
  received 1511714827000 (<["time" := VStr "1000000000"]> testBody).

(** An event whose time is not a number. *)
Definition garbledEvent : state :=
  received 1511714827000 (<["time" := VStr "yesterday"]> testBody).

(** Bodies with an empty [time] and an empty [duplicate]. *)
Definition emptyTimeEvent : state := received 0 {[ "time" := VStr "" ]}.
Definition emptyFlagEvent : state := received 0 {[ "duplicate" := VStr "" ]}.

(** A normalized body that holds only [baseStationTime]. *)
Definition normalizedAt (now bst : Z) : state :=
  received now {[ "baseStationTime" := VNum (Int bst) ]}.

(** A message exactly five minutes old, and one sixteen years old. *)
Definition fiveMinutesOld : state := normalizedAt 1511715127000 1511714827.
Definition yearsOld : state := normalizedAt 1511714827000 1000000000.

(** The fields of the object returned by [parseSIGFOXMessage], as a
    function of the fields it receives: [retimed] is the effect of the
    block on [time], [converted] of one conversion. *)
Definition converted (k : string) (f : value -> value) (o : obj) : obj :=
  if Js.ToBoolean (Js.get o k) then <[k := f (Js.get o k)]> o else o.

Definition retimed (o : obj) : obj :=
  if Js.ToBoolean (Js.get o "time") then
    let t := Js.parseInt (Js.get o "time") in
    delete "time"
      (<["baseStationTime" := VNum t]>
        (<["timestamp" := VStr (JsNumber.toString (JsNumber.mul t (Int 1000)))]>
          (<["time" := VNum t]> o)))
  else o.

Definition parsedBody (o : obj) : obj :=
  converted "longPolling" parseBool
    (converted "ack" parseBool
      (converted "seqNumber" (fun v => VNum (Js.parseInt v))
        (converted "rssi" (fun v => VNum (Js.parseFloat v))
          (converted "lng" (fun v => VNum (Js.parseInt v))
            (converted "lat" (fun v => VNum (Js.parseInt v))
              (converted "avgSnr" (fun v => VNum (Js.parseFloat v))
                (converted "snr" (fun v => VNum (Js.parseFloat v))
                  (converted "duplicate" parseBool (retimed o))))))))).

(** What [parseSIGFOXMessage] leaves in a boolean field that held [v]. *)
Definition booleanOf (v : value) : value :=
  if decide (v = VStr "true") then VBool true
  else if Js.ToBoolean v then VBool false
  else v.

(** The age computed by [task] at the time [now] from the value of
    [baseStationTime]. *)
Definition ageAt (now : Z) (bst : value) : number :=
  JsNumber.sub (Int now) (JsNumber.mul (Js.parseInt bst) (Int 1000)).

(** The state after one more reading of the clock. *)
Definition tick (s : state) : state :=
  {| heap := heap s; trace := trace s; clock := clock s; ticks := S (ticks s) |}.

(** The state after more events. *)
Definition extend (evs : list event) (s : state) : state :=
  {| heap := heap s; trace := trace s ++ evs;
     clock := clock s; ticks := ticks s |}.

(** * Properties *)

(** ** Strings *)



Lemma mapChars_length f s : String.length (mapChars f s) = String.length s.
Proof. induction s; simpl; congruence. Qed.


Lemma toLowerCase_length s : String.length (toLowerCase s) = String.length s.
Proof. apply mapChars_length. Qed.


(** ** Numbers: reading and printing *)

Example parseInt_examples :
  JsNumber.parseInt "1511714827" = Int 1511714827 /\
  JsNumber.parseInt "  -42abc" = Int (-42) /\
  JsNumber.parseInt "abc" = NaN /\
  JsNumber.parseInt "" = NaN /\
  JsNumber.parseInt "1e+21" = Int 1.
Proof. repeat split; reflexivity. Qed.

Example parseFloat_examples :
  JsNumber.parseFloat "18.86" = Fin 1886 2 /\
  JsNumber.parseFloat "-123.00" = Int (-123) /\
  JsNumber.parseFloat "1.5e3" = Int 1500 /\
  JsNumber.parseFloat ".5" = Fin 5 1 /\
  JsNumber.parseFloat "-Infinity" = Infinity true /\
  JsNumber.parseFloat "x" = NaN.
Proof. repeat split; reflexivity. Qed.

Example toString_examples :
  JsNumber.toString (Int 1511714827000) = "1511714827000" /\
  JsNumber.toString (Int (-120)) = "-120" /\
  JsNumber.toString (Fin 1886 2) = "18.86" /\
  JsNumber.toString (Fin 5 3) = "0.005" /\
  JsNumber.toString (Fin 5 7) = "5e-7" /\
  JsNumber.toString (Fin 15 8) = "1.5e-7" /\
  JsNumber.toString (Int (10 ^ 21)) = "1e+21" /\
  JsNumber.toString (Int (123 * 10 ^ 20)) = "1.23e+22" /\
  JsNumber.toString (Int (10 ^ 20)) = "100000000000000000000" /\
  JsNumber.toString (Int 0) = "0".
Proof. repeat (split; [vm_compute; reflexivity|]). reflexivity. Qed.

(** From [10^21] on a number prints in exponent notation, and [parseInt]
    of the number reads the digits before the point. *)
Example parseInt_of_large_number :
  Js.parseInt (VNum (Int (10 ^ 21))) = Int 1 /\
  Js.parseInt (VNum (Int (25 * 10 ^ 20))) = Int 2 /\
  Js.parseInt (VNum (Int (10 ^ 21 - 1))) = Int (10 ^ 21 - 1).
Proof. split; [|split]; vm_compute; reflexivity. Qed.


(** ** Device id normalization *)




Lemma mainDevice_string x q s :
  x <> "" -> mainDevice (VStr x) q s = (Return (VStr (toUpperCase x)), s).
Proof. destruct x; [congruence | reflexivity]. Qed.




(** ** Numbers: printing an integer and reading it back *)

Module JsNumberFacts.
Import JsNumber.

Lemma digit_cases d :
  isDecimalDigit d ->
  d = 0 \/ d = 1 \/ d = 2 \/ d = 3 \/ d = 4 \/ d = 5 \/ d = 6 \/ d = 7 \/ d = 8 \/ d = 9.
Proof. unfold isDecimalDigit. lia. Qed.

Ltac each_digit d H :=
  destruct (digit_cases d H) as [->|[->|[->|[->|[->|[->|[->|[->|[->| ->]]]]]]]]].

Lemma digitChar_isDigit d : isDecimalDigit d -> isDigit (digitChar d) = true.
Proof. intros H. each_digit d H; reflexivity. Qed.

Lemma digitChar_value d : isDecimalDigit d -> digitValue (digitChar d) = d.
Proof. intros H. each_digit d H; reflexivity. Qed.

Lemma digitChar_not_space d : isDecimalDigit d -> isWhiteSpace (digitChar d) = false.
Proof. intros H. each_digit d H; reflexivity. Qed.

Lemma digitChar_not_sign d r :
  isDecimalDigit d -> splitSign (String (digitChar d) r) = (false, String (digitChar d) r).
Proof. intros H. each_digit d H; reflexivity. Qed.

Lemma digitsPrefix_digitsString ds :
  Forall isDecimalDigit ds -> digitsPrefix (digitsString ds) = (ds, "").
Proof.
  induction 1 as [|d r Hd Hr IH]; simpl; [reflexivity|].
  now rewrite digitChar_isDigit, IH, digitChar_value.
Qed.

Lemma digitsFrom_digits fuel : forall n acc,
  0 <= n -> Forall isDecimalDigit acc ->
  Forall isDecimalDigit (digitsFrom fuel n acc).
Proof.
  induction fuel as [|fuel IH]; intros n acc Hn Hacc; simpl; [exact Hacc|].
  destruct (n <? 10) eqn:E.
  - apply Z.ltb_lt in E. constructor; [unfold isDecimalDigit; lia | exact Hacc].
  - apply IH.
    + apply Z.div_pos; lia.
    + constructor; [|exact Hacc].
      unfold isDecimalDigit. pose proof (Z.mod_pos_bound n 10). lia.
Qed.

Lemma digitsFrom_value fuel : forall n acc,
  0 <= n < 10 ^ Z.of_nat fuel ->
  fold_left (fun a d => 10 * a + d) (digitsFrom fuel n acc) 0
  = fold_left (fun a d => 10 * a + d) acc n.
Proof.
  induction fuel as [|fuel IH]; intros n acc Hn.
  - simpl in *. assert (n = 0) by lia. now subst.
  - cbn [digitsFrom]. destruct (n <? 10) eqn:E.
    + simpl. reflexivity.
    + apply Z.ltb_ge in E. rewrite IH.
      * simpl. f_equal. pose proof (Z.div_mod n 10). lia.
      * rewrite Nat2Z.inj_succ, Z.pow_succ_r in Hn by lia.
        split; [apply Z.div_pos; lia|].
        apply Z.div_lt_upper_bound; lia.
Qed.

Lemma digitsFrom_length fuel : forall n acc k,
  0 <= n < 10 ^ Z.of_nat (S k) ->
  (length (digitsFrom fuel n acc) <= S k + length acc)%nat.
Proof.
  induction fuel as [|fuel IH]; intros n acc k Hn; simpl digitsFrom; [lia|].
  destruct (n <? 10) eqn:E; [simpl; lia|].
  apply Z.ltb_ge in E.
  destruct k as [|k]; [simpl in Hn; lia|].
  etransitivity; [apply (IH _ _ k)|simpl; lia].
  rewrite Nat2Z.inj_succ, Z.pow_succ_r in Hn by lia.
  split; [apply Z.div_pos; lia|].
  apply Z.div_lt_upper_bound; lia.
Qed.

Lemma enough_fuel n : 0 <= n -> n < 10 ^ Z.of_nat (S (Z.to_nat (Z.log2 n))).
Proof.
  intros Hn. rewrite Nat2Z.inj_succ, Z2Nat.id by apply Z.log2_nonneg.
  destruct (Z.eq_dec n 0) as [->|Hz]; [reflexivity|].
  destruct (Z.log2_spec n) as [_ H]; [lia|].
  eapply Z.lt_le_trans; [exact H|].
  apply Z.pow_le_mono_l. pose proof (Z.log2_nonneg n). lia.
Qed.

Lemma digitsOf_digits n : 0 <= n -> Forall isDecimalDigit (digitsOf n).
Proof. intros Hn. apply digitsFrom_digits; [exact Hn | constructor]. Qed.

Lemma digitsOf_value n : 0 <= n -> digitsValue (digitsOf n) = n.
Proof.
  intros Hn. unfold digitsValue, digitsOf.
  rewrite digitsFrom_value; [reflexivity|].
  split; [exact Hn | now apply enough_fuel].
Qed.

Lemma digitsOf_length n k :
  0 <= n < 10 ^ Z.of_nat (S k) -> (length (digitsOf n) <= S k)%nat.
Proof.
  intros Hn. unfold digitsOf.
  pose proof (digitsFrom_length (S (Z.to_nat (Z.log2 n))) n [] k Hn) as H.
  change (length (@nil Z)) with 0%nat in H. lia.
Qed.

Lemma digitsFrom_nonempty fuel : forall n acc,
  acc <> [] -> digitsFrom fuel n acc <> [].
Proof.
  induction fuel as [|fuel IH]; intros n acc Hacc; simpl; [exact Hacc|].
  destruct (n <? 10); [discriminate | apply IH; discriminate].
Qed.

Lemma digitsOf_nonempty n : digitsOf n <> [].
Proof.
  unfold digitsOf. simpl. destruct (n <? 10); [discriminate|].
  apply digitsFrom_nonempty. discriminate.
Qed.

Lemma stripTrailingZeros_length ds :
  (length (stripTrailingZeros ds) <= length ds)%nat.
Proof.
  induction ds as [|d r IH]; simpl; [lia|].
  destruct (stripTrailingZeros r); [destruct (d =? 0)|]; simpl in *; lia.
Qed.

Lemma stripTrailingZeros_restore ds :
  (stripTrailingZeros ds
   ++ zeros (length ds - length (stripTrailingZeros ds)))%list = ds.
Proof.
  unfold zeros.
  induction ds as [|d r IH]; simpl; [reflexivity|].
  pose proof (stripTrailingZeros_length r) as Hlen.
  destruct (stripTrailingZeros r) as [|d' r'] eqn:E.
  - simpl in IH. rewrite Nat.sub_0_r in IH.
    destruct (d =? 0) eqn:Ed.
    + apply Z.eqb_eq in Ed. subst d. simpl. now rewrite IH.
    + simpl. rewrite Nat.sub_0_r. now rewrite IH.
  - simpl in *. now rewrite IH.
Qed.

Lemma parseInt_digitsString ds :
  ds <> [] -> Forall isDecimalDigit ds ->
  parseInt (digitsString ds) = Int (digitsValue ds) /\
  parseInt (String "-" (digitsString ds)) = Int (- digitsValue ds).
Proof.
  intros Hne Hds. pose proof (digitsPrefix_digitsString ds Hds) as Hp.
  destruct ds as [|d r]; [congruence|].
  inversion Hds as [|? ? Hd Hr]; subst.
  change (digitsString (d :: r))
    with (String (digitChar d) (digitsString r)) in *.
  split; unfold parseInt.
  - cbn [trimStart]. rewrite digitChar_not_space by assumption.
    rewrite digitChar_not_sign by assumption.
    now rewrite Hp.
  - cbn [trimStart]. replace (isWhiteSpace "-") with false by reflexivity.
    cbn [splitSign]. now rewrite Hp.
Qed.

(** Below [10^21] an integer prints as its digits, and [parseInt] reads
    the same integer back. *)
Lemma parseInt_toString_Int z :
  Z.abs z < 10 ^ 21 -> parseInt (toString (Int z)) = Int z.
Proof.
  intros Hz. unfold toString.
  destruct (z =? 0) eqn:E0; [apply Z.eqb_eq in E0; now subst|].
  apply Z.eqb_neq in E0.
  assert (Habs : 0 <= Z.abs z < 10 ^ Z.of_nat 21) by (split; [lia | exact Hz]).
  pose proof (digitsOf_length _ 20 Habs) as Hlen.
  pose proof (digitsOf_digits (Z.abs z) (proj1 Habs)) as Hds.
  pose proof (digitsOf_value (Z.abs z) (proj1 Habs)) as Hval.
  pose proof (digitsOf_nonempty (Z.abs z)) as Hne.
  pose proof (stripTrailingZeros_length (digitsOf (Z.abs z))) as Hstrip.
  assert (Hprint : positiveToString (digitsOf (Z.abs z)) 0
                   = digitsString (digitsOf (Z.abs z))).
  { unfold positiveToString.
    rewrite Z.sub_0_r.
    rewrite (proj2 (Z.leb_le _ _)) by lia.
    rewrite (proj2 (Z.leb_le _ 21)) by lia.
    cbn [andb]. f_equal.
    replace (Z.to_nat _) with
      (length (digitsOf (Z.abs z))
       - length (stripTrailingZeros (digitsOf (Z.abs z))))%nat by lia.
    apply stripTrailingZeros_restore. }
  rewrite Hprint.
  destruct (parseInt_digitsString _ Hne Hds) as [Hpos Hneg].
  destruct (z <? 0) eqn:Es.
  - apply Z.ltb_lt in Es.
    change (parseInt (String "-" (digitsString (digitsOf (Z.abs z)))) = Int z).
    rewrite Hneg, Hval. f_equal. lia.
  - apply Z.ltb_ge in Es.
    change (parseInt (digitsString (digitsOf (Z.abs z))) = Int z).
    rewrite Hpos, Hval. f_equal. lia.
Qed.

End JsNumberFacts.

(** ** The state monad and the object store *)

Lemma bind_Return {A B} (m : M A) (f : A -> M B) s a s' :
  m s = (Return a, s') -> (m ≫= f) s = f a s'.
Proof. intros H. unfold mbind, M_bind, bind. now rewrite H. Qed.

Lemma bind_Throw {A B} (m : M A) (f : A -> M B) s e s' :
  m s = (Throw e, s') -> (m ≫= f) s = (Throw e, s').
Proof. intros H. unfold mbind, M_bind, bind. now rewrite H. Qed.

Lemma objectAt_setHeap l o h s : objectAt l (setHeap (<[l := o]> h) s) = o.
Proof. unfold objectAt, setHeap. simpl. now rewrite lookup_insert_eq. Qed.

Lemma getProp_stored l k o h s :
  getProp l k (setHeap (<[l := o]> h) s)
  = (Return (Js.get o k), setHeap (<[l := o]> h) s).
Proof. unfold getProp. now rewrite objectAt_setHeap. Qed.

Lemma setProp_stored l k v o h s :
  setProp l k v (setHeap (<[l := o]> h) s)
  = (Return tt, setHeap (<[l := <[k := v]> o]> h) s).
Proof.
  unfold setProp. rewrite objectAt_setHeap. unfold setHeap. simpl.
  now rewrite insert_insert_eq.
Qed.

Lemma deleteProp_stored l k o h s :
  deleteProp l k (setHeap (<[l := o]> h) s)
  = (Return tt, setHeap (<[l := delete k o]> h) s).
Proof.
  unfold deleteProp. rewrite objectAt_setHeap. unfold setHeap. simpl.
  now rewrite insert_insert_eq.
Qed.

Lemma convert_stored l k f o h s :
  convert l k f (setHeap (<[l := o]> h) s)
  = (Return tt, setHeap (<[l := converted k f o]> h) s).
Proof.
  unfold convert, converted.
  erewrite bind_Return by apply getProp_stored.
  destruct (Js.ToBoolean (Js.get o k)); [|reflexivity].
  erewrite bind_Return by apply getProp_stored.
  apply setProp_stored.
Qed.

Lemma parseSIGFOXMessage_spec body0 s :
  parseSIGFOXMessage body0 s
  = (Return (fresh (dom (heap s))),
     setHeap (<[fresh (dom (heap s)) := parsedBody (objectAt body0 s)]> (heap s)) s).
Proof.
  unfold parseSIGFOXMessage, parsedBody.
  erewrite bind_Return by reflexivity.
  erewrite bind_Return by reflexivity.
  set (l := fresh (dom (heap s))). set (o := objectAt body0 s).
  erewrite bind_Return by apply getProp_stored.
  erewrite (bind_Return _ _ _ tt (setHeap (<[l := retimed o]> (heap s)) s)).
  2:{ unfold retimed. destruct (Js.ToBoolean (Js.get o "time")); [|reflexivity].
      erewrite bind_Return by apply setProp_stored.
      erewrite bind_Return by apply setProp_stored.
      erewrite bind_Return by apply setProp_stored.
      apply deleteProp_stored. }
  repeat (erewrite bind_Return by apply convert_stored).
  reflexivity.
Qed.

(** ** The fields of the normalized body *)

Lemma get_lookup (o : obj) k v : o !! k = Some v -> Js.get o k = v.
Proof. unfold Js.get. now intros ->. Qed.

Lemma lookup_converted_ne k k' f (o : obj) :
  k <> k' -> converted k f o !! k' = o !! k'.
Proof.
  intros Hne. unfold converted.
  destruct (Js.ToBoolean _); [now rewrite lookup_insert_ne | reflexivity].
Qed.

Lemma lookup_converted_eq k f (o : obj) :
  converted k f o !! k
  = (fun v => if Js.ToBoolean v then f v else v) <$> (o !! k).
Proof.
  unfold converted, Js.get.
  destruct (o !! k) as [v|] eqn:E; simpl.
  - destruct (Js.ToBoolean v); [now rewrite lookup_insert_eq | now rewrite E].
  - now rewrite E.
Qed.

Lemma lookup_retimed_other k (o : obj) :
  k <> "time" -> k <> "timestamp" -> k <> "baseStationTime" ->
  retimed o !! k = o !! k.
Proof.
  intros H1 H2 H3. unfold retimed.
  destruct (Js.ToBoolean _); [|reflexivity].
  rewrite lookup_delete_ne by congruence.
  now rewrite !lookup_insert_ne by congruence.
Qed.

Lemma lookup_retimed_time (o : obj) :
  retimed o !! "time"
  = if Js.ToBoolean (Js.get o "time") then None else o !! "time".
Proof.
  unfold retimed. destruct (Js.ToBoolean _); [|reflexivity].
  apply lookup_delete_eq.
Qed.

Lemma lookup_retimed_baseStationTime (o : obj) :
  retimed o !! "baseStationTime"
  = if Js.ToBoolean (Js.get o "time")
    then Some (VNum (Js.parseInt (Js.get o "time")))
    else o !! "baseStationTime".
Proof.
  unfold retimed. destruct (Js.ToBoolean _); [|reflexivity].
  rewrite lookup_delete_ne by discriminate.
  apply lookup_insert_eq.
Qed.

Ltac skip_conversions :=
  unfold parsedBody; repeat (rewrite lookup_converted_ne by discriminate).

Lemma lookup_parsed_time (o : obj) :
  parsedBody o !! "time"
  = if Js.ToBoolean (Js.get o "time") then None else o !! "time".
Proof. skip_conversions. apply lookup_retimed_time. Qed.

Lemma lookup_parsed_baseStationTime (o : obj) :
  parsedBody o !! "baseStationTime"
  = if Js.ToBoolean (Js.get o "time")
    then Some (VNum (Js.parseInt (Js.get o "time")))
    else o !! "baseStationTime".
Proof. skip_conversions. apply lookup_retimed_baseStationTime. Qed.

Lemma parseBool_decide v : parseBool v = VBool (bool_decide (v = VStr "true")).
Proof. unfold parseBool, Js.strictEq. now destruct v as [| | |[]|]. Qed.


Lemma parseBool_booleanOf v :
  (if Js.ToBoolean v then parseBool v else v) = booleanOf v.
Proof.
  unfold booleanOf. rewrite parseBool_decide.
  destruct (decide (v = VStr "true")) as [->|Hne]; [reflexivity|].
  now rewrite bool_decide_eq_false_2.
Qed.

Lemma lookup_parsed_boolean (o : obj) k :
  k = "duplicate" \/ k = "ack" \/ k = "longPolling" ->
  parsedBody o !! k = booleanOf <$> (o !! k).
Proof.
  intros [->|[->| ->]]; unfold parsedBody;
    repeat (rewrite lookup_converted_ne by discriminate);
    rewrite lookup_converted_eq;
    repeat (rewrite lookup_converted_ne by discriminate);
    rewrite ?lookup_retimed_other by discriminate;
    destruct (o !! _) as [v|]; simpl; try reflexivity;
    now rewrite parseBool_booleanOf.
Qed.

(** The store after [parseSIGFOXMessage]: one more object, the others as
    they were. *)
Lemma parseSIGFOXMessage_frame body0 s body s' :
  parseSIGFOXMessage body0 s = (Return body, s') ->
  (body ∉ dom (heap s)) /\
  (forall l, l ∈ dom (heap s) -> heap s' !! l = heap s !! l) /\
  trace s' = trace s.
Proof.
  rewrite parseSIGFOXMessage_spec. intros [= <- <-].
  pose proof (is_fresh (dom (heap s))) as Hfresh.
  split; [exact Hfresh|]. split; [|reflexivity].
  intros l Hl. simpl. apply lookup_insert_ne. intros Heq. apply Hfresh. now rewrite Heq.
Qed.

(** C6, as the code has it.  In each of the fields [duplicate], [ack] and
    [longPolling], the string ["true"] becomes the boolean true and every
    other truthy value (every other non-empty string) becomes the boolean
    false; a falsy value, such as the empty string, is left as it is, and
    an absent field stays absent. *)
Theorem boolean_fields_normalized (body0 : loc) (s : state) :
  exists body s',
    parseSIGFOXMessage body0 s = (Return body, s') /\
    forall k, k = "duplicate" \/ k = "ack" \/ k = "longPolling" ->
      match objectAt body0 s !! k with
      | None => objectAt body s' !! k = None
      | Some v =>
          objectAt body s' !! k
          = Some (if decide (v = VStr "true") then VBool true
                  else if Js.ToBoolean v then VBool false
                  else v)
      end.
Proof.
  eexists _, _. split; [apply parseSIGFOXMessage_spec|].
  intros k Hk. rewrite objectAt_setHeap, (lookup_parsed_boolean _ k Hk).
  now destruct (objectAt body0 s !! k).
Qed.

Lemma boolean_fields_normalized_witness :
  exists body s',
    parseSIGFOXMessage 1 testEvent = (Return body, s') /\
    objectAt body s' !! "ack" = Some (VBool false).
Proof.
  destruct (boolean_fields_normalized 1 testEvent) as (body & s' & Hrun & Hk).
  exists body, s'. split; [exact Hrun|].
  exact (Hk "ack" (or_intror (or_introl eq_refl))).
Defined.

(** C6 fails on an empty string: it is present, and it is not mapped to
    the boolean false. *)
Lemma empty_flag_left_as_string :
  exists body s',
    parseSIGFOXMessage 1 emptyFlagEvent = (Return body, s') /\
    objectAt 1 emptyFlagEvent !! "duplicate" = Some (VStr "") /\
    objectAt body s' !! "duplicate" = Some (VStr "") /\
    VStr "" <> VBool false.
Proof.
  eexists _, _. split; [apply parseSIGFOXMessage_spec|].
  rewrite objectAt_setHeap, lookup_parsed_boolean by auto.
  repeat split; discriminate.
Qed.

(** The [time] key is removed whenever the value received under it is
    truthy, and it is not invented when absent. *)
Lemma parsed_time_removed (o : obj) :
  Js.ToBoolean (Js.get o "time") = true \/ o !! "time" = None ->
  parsedBody o !! "time" = None.
Proof.
  rewrite lookup_parsed_time. intros [-> | H]; [reflexivity|].
  rewrite H. now destruct (Js.ToBoolean _).
Qed.

(** C7 at the body [{ time: "" }]: the input object is not changed, but
    the object returned still has the key [time]. *)
Theorem empty_time_kept :
  exists body s',
    parseSIGFOXMessage 1 emptyTimeEvent = (Return body, s') /\
    objectAt 1 s' = objectAt 1 emptyTimeEvent /\
    objectAt body s' !! "time" = Some (VStr "").
Proof.
  eexists _, _. split; [apply parseSIGFOXMessage_spec|].
  split.
  - reflexivity.
  - rewrite objectAt_setHeap, lookup_parsed_time. reflexivity.
Qed.

(** ** The freshness test *)

Section Freshness.
Context {platform : Platform}.

Lemma checkAge_spec body s :
  checkAge body s
  = let bst := Js.get (objectAt body s) "baseStationTime" in
    if isAWS && Js.ToBoolean bst then
      let age := ageAt (clock s (ticks s)) bst in
      if JsNumber.gt age (Int 300000)
      then (Throw (TooOld age), extend [EvConsole] (tick s))
      else (Return tt, extend [EvConsole] (tick s))
    else (Return tt, s).
Proof.
  unfold checkAge. erewrite bind_Return by reflexivity.
  cbv zeta. destruct (isAWS && Js.ToBoolean _); [|reflexivity].
  erewrite bind_Return by reflexivity.
  erewrite bind_Return by reflexivity.
  erewrite bind_Return by reflexivity.
  unfold ageAt. change (5 * 60 * 1000) with 300000.
  destruct (JsNumber.gt _ _); reflexivity.
Qed.

Lemma ageAt_Int now z :
  Z.abs z < 10 ^ 21 -> ageAt now (VNum (Int z)) = Int (now - z * 1000).
Proof.
  intros Hz. unfold ageAt, Js.parseInt, Js.ToString.
  rewrite JsNumberFacts.parseInt_toString_Int by exact Hz.
  cbn. unfold JsNumber.align. cbn. f_equal. lia.
Qed.

Lemma gt_Int a b : JsNumber.gt (Int a) (Int b) = (b <? a).
Proof. cbn. unfold JsNumber.align. cbn. f_equal; lia. Qed.

End Freshness.

(** C2, as the code has it.  On an AWS deployment, for a message whose
    [baseStationTime] is a non-zero integer (below [10^21] in absolute
    value, so that it prints as its digits), the freshness test computes
    [age = now - baseStationTime * 1000] and rejects the message if and
    only if [age > 300000]; at [age = 300000] the message is accepted.
    On a deployment that is not AWS the test is skipped. *)
Theorem freshness_guard `{Platform} (body : loc) (s : state) (z : Z) :
  Js.get (objectAt body s) "baseStationTime" = VNum (Int z) ->
  z <> 0 -> Z.abs z < 10 ^ 21 ->
  let now := clock s (ticks s) in
  let age := now - z * 1000 in
  (isAWS = true ->
     ageAt now (VNum (Int z)) = Int age /\
     (fst (checkAge body s) = Throw (TooOld (Int age)) <-> 300000 < age) /\
     (fst (checkAge body s) = Return tt <-> age <= 300000) /\
     (age = 300000 -> fst (checkAge body s) = Return tt)) /\
  (isAWS = false -> checkAge body s = (Return tt, s)).
Proof.
  intros Hbst Hz Hrange now age.
  rewrite checkAge_spec, Hbst. cbv zeta.
  replace (Js.ToBoolean (VNum (Int z))) with true
    by (symmetry; apply negb_true_iff, Z.eqb_neq, Hz).
  split; intros ->; [|reflexivity].
  cbn [andb]. fold now. rewrite (ageAt_Int now z Hrange), gt_Int. fold age.
  split; [reflexivity|].
  destruct (300000 <? age) eqn:E; cbn [fst].
  - apply Z.ltb_lt in E. repeat split; try lia; try discriminate.
  - apply Z.ltb_ge in E. repeat split; try lia; try discriminate; reflexivity.
Qed.

Lemma freshness_guard_witness :
  fst (@checkAge awsLambda 1 fiveMinutesOld) = Return tt.
Proof.
  refine (proj2 (proj2 (proj2
    (proj1 (@freshness_guard awsLambda 1 fiveMinutesOld 1511714827 _ _ _) _))) _);
    try reflexivity; try discriminate.
Defined.

(** C2 fails off AWS: on Google Cloud a message older than five minutes
    is not rejected. *)
Lemma stale_message_accepted_off_aws :
  Js.get (objectAt 1 yearsOld) "baseStationTime" = VNum (Int 1000000000) /\
  clock yearsOld (ticks yearsOld) = 1511714827000 /\
  300000 < 1511714827000 - 1000000000 * 1000 /\
  @checkAge googleCloud 1 yearsOld = (Return tt, yearsOld).
Proof. repeat (split; [reflexivity|]). reflexivity. Qed.

(** ** Traces *)

Local Open Scope list_scope.

Lemma published_app t1 t2 : published (t1 ++ t2) = published t1 ++ published t2.
Proof.
  induction t1 as [|e r IH]; simpl; [reflexivity|].
  destruct e; simpl; now rewrite ?IH.
Qed.

Lemma logged_app t1 t2 : logged (t1 ++ t2) = logged t1 ++ logged t2.
Proof.
  induction t1 as [|e r IH]; simpl; [reflexivity|].
  destruct e as [a [err|]| | | | | |]; simpl; now rewrite ?IH.
Qed.

Lemma extend_nil s : extend [] s = s.
Proof. destruct s. unfold extend. simpl. now rewrite app_nil_r. Qed.

Lemma extend_extend e1 e2 s : extend e2 (extend e1 s) = extend (e1 ++ e2) s.
Proof. unfold extend. simpl. now rewrite app_assoc. Qed.

Lemma published_extend evs s :
  published (trace (extend evs s)) = published (trace s) ++ published evs.
Proof. apply published_app. Qed.

(** ** The fan-out of [saveMessage] *)

Section FanOut.
Context {platform : Platform}.
Hypothesis cloud : isGoogleCloud || isAWS = true.

Lemma scloud_ok s : scloud s = (Return tt, s).
Proof. unfold scloud. now rewrite cloud. Qed.

Lemma log_ok action err s :
  log action err s = (Return tt, extend [EvLog action err] s).
Proof. unfold log. erewrite bind_Return by apply scloud_ok. reflexivity. Qed.

Lemma dumpError_ok e s :
  dumpError e s = (Return (Fulfilled (PError e)), extend [EvDumpError e] s).
Proof.
  unfold dumpError. erewrite bind_Return by apply scloud_ok. reflexivity.
Qed.

(** Every target of the list gets its publish call, whatever the
    outcome of the calls before it. *)
Lemma startPublishes_spec m qs : forall s,
  exists started evs,
    startPublishes m qs s = (Return started, extend evs s) /\
    published evs = qs /\ logged evs = [] /\
    Forall2 (fun q p => exists s', p = publishMessage s' m (q_device q) (q_type q))
            qs started.
Proof.
  induction qs as [|q r IH]; intros s.
  - exists [], []. rewrite extend_nil. repeat split. constructor.
  - destruct (IH (extend [EvPublish m (q_device q) (q_type q)] s))
      as (started & evs & Hrun & Hpub & Hlog & Hall).
    exists (publishMessage s m (q_device q) (q_type q) :: started),
           (EvPublish m (q_device q) (q_type q) :: evs).
    cbn [startPublishes].
    erewrite bind_Return by reflexivity.
    erewrite bind_Return by reflexivity.
    erewrite bind_Return by exact Hrun.
    rewrite extend_extend. repeat split.
    + simpl. rewrite Hpub. now destruct q.
    + simpl. exact Hlog.
    + constructor; [now exists s | exact Hall].
Qed.

(** The handler put on a publish always yields a fulfilled promise; a
    rejection is logged. *)
Lemma suppress_spec (p : settled value) s :
  exists x evs,
    suppress p s = (Return (Fulfilled x), extend evs s) /\
    published evs = [] /\ logged evs = rejections [p].
Proof.
  destruct p as [v|e].
  - exists (PValue v), []. now rewrite extend_nil.
  - exists (PError e), [EvLog "saveMessage" (Some e)].
    unfold suppress, callback.
    erewrite bind_Return by apply log_ok. repeat split.
Qed.

Lemma mapM_suppress_spec ps : forall s,
  exists xs evs,
    mapM suppress ps s = (Return (map Fulfilled xs), extend evs s) /\
    published evs = [] /\ logged evs = rejections ps.
Proof.
  induction ps as [|p r IH]; intros s.
  - exists [], []. now rewrite extend_nil.
  - destruct (suppress_spec p s) as (x & e1 & Hp & Hpub1 & Hlog1).
    destruct (IH (extend e1 s)) as (xs & e2 & Hr & Hpub2 & Hlog2).
    exists (x :: xs), (e1 ++ e2).
    cbn [mapM]. erewrite bind_Return by exact Hp.
    erewrite bind_Return by exact Hr.
    rewrite extend_extend, published_app, logged_app, Hpub1, Hpub2, Hlog1, Hlog2.
    repeat split. now destruct p.
Qed.

Lemma promiseAll_fulfilled {A} (xs : list A) :
  promiseAll (map Fulfilled xs) = Fulfilled xs.
Proof. induction xs as [|x r IH]; simpl; [reflexivity | now rewrite IH]. Qed.

Lemma publishAll_spec m qs s :
  exists started evs,
    publishAll m qs s = (Return (Fulfilled (setDispatched m)), extend evs s) /\
    published evs = qs /\
    Forall2 (fun q p => exists s', p = publishMessage s' m (q_device q) (q_type q))
            qs started /\
    logged evs = rejections started.
Proof.
  destruct (startPublishes_spec m qs s) as (started & e1 & H1 & Hpub1 & Hlog1 & Hall).
  destruct (mapM_suppress_spec started (extend e1 s))
    as (xs & e2 & H2 & Hpub2 & Hlog2).
  exists started, (e1 ++ e2 ++ [EvLog "saveMessage" None]).
  unfold publishAll.
  erewrite bind_Return by exact H1.
  erewrite bind_Return by exact H2.
  rewrite promiseAll_fulfilled.
  erewrite bind_Return.
  2:{ unfold thenP, callback. erewrite bind_Return by apply log_ok. reflexivity. }
  erewrite bind_Return by reflexivity.
  cbn [catchP]. unfold ret.
  rewrite !extend_extend.
  rewrite !published_app, !logged_app, Hpub1, Hpub2, Hlog1, Hlog2.
  repeat split; [now rewrite !app_nil_r | exact Hall | now rewrite app_nil_r].
Qed.

Lemma saveMessage_spec query device type body rootTraceId s :
  exists m evs,
    saveMessage query device type body rootTraceId s
    = (Return (Fulfilled (setDispatched m)), extend evs s) /\
    published evs = queues device type.
Proof.
  unfold saveMessage. erewrite bind_Return by apply log_ok.
  match goal with |- context [publishAll ?m ?qs ?s] =>
    destruct (publishAll_spec m qs s) as (started & evs & Hrun & Hpub & _);
    exists m, (EvLog "saveMessage" None :: evs)
  end.
  rewrite Hrun, extend_extend. split; [reflexivity | exact Hpub].
Qed.

(** *** Awaiting the publishes *)

Lemma promiseAllAt_settled {A} (ps : list (settled A)) :
  promiseAllAt (map Some ps) = Some (promiseAll ps).
Proof.
  induction ps as [|[a|e] r IH]; simpl; [reflexivity| |reflexivity].
  rewrite IH. now destruct (promiseAll r).
Qed.

Lemma promiseAll_fulfilled_iff {A} (ps : list (settled A)) (xs : list A) :
  promiseAll ps = Fulfilled xs <-> ps = map Fulfilled xs.
Proof.
  split; [|intros ->; apply promiseAll_fulfilled].
  revert xs. induction ps as [|[a|e] r IH]; simpl; intros xs.
  - now intros [= <-].
  - destruct (promiseAll r) as [l|e]; [|discriminate].
    intros [= <-]. simpl. now rewrite (IH l eq_refl).
  - discriminate.
Qed.

(** Handled promises are pending or fulfilled: [Promise.all] of them is
    pending as long as one of them is, and fulfilled after that. *)
Lemma promiseAllAt_handled {A} (hs : list (option (settled A))) :
  Forall (fun h => forall e, h <> Some (Rejected e)) hs ->
  (In None hs -> promiseAllAt hs = None) /\
  (~ In None hs -> exists xs, promiseAllAt hs = Some (Fulfilled xs)).
Proof.
  induction 1 as [|h r Hh Hr [IHin IHout]]; simpl.
  - split; [tauto | intros _; now exists []].
  - destruct h as [[a|e]|]; [| now destruct (Hh e) |].
    + split.
      * intros [Hin|Hin]; [discriminate|]. now rewrite (IHin Hin).
      * intros Hout. destruct IHout as (xs & ->); [tauto|]. now exists (a :: xs).
    + split; [|tauto]. intros _.
      destruct (promiseAllAt r) as [[l|e]|] eqn:E; try reflexivity.
      exfalso. clear -Hr E. revert e E.
      induction Hr as [|h r Hh Hr IH]; simpl; [discriminate|].
      intros e. destruct h as [[a|e']|]; [| now destruct (Hh e') |];
        destruct (promiseAllAt r) as [[l|e'']|]; try discriminate;
        intros _; now apply (IH e'').
Qed.

Lemma pending_or_settled {A} (l : list (option A)) : In None l \/ ~ In None l.
Proof.
  induction l as [|[a|] r [IH|IH]]; simpl; try tauto.
  right. intros [H|H]; [discriminate | tauto].
Qed.

(** The handlers at a moment: one per publish, run for those that have
    settled. *)
Lemma mapM_suppressAt_spec arrived : forall s,
  exists hs evs,
    mapM suppressAt arrived s = (Return hs, extend evs s) /\
    published evs = [] /\
    Forall (fun h => forall e, h <> Some (Rejected e)) hs /\
    (In None arrived <-> In None hs).
Proof.
  induction arrived as [|a r IH]; intros s.
  - exists [], []. rewrite extend_nil. repeat split; auto.
  - destruct a as [p|].
    + destruct (suppress_spec p s) as (x & e1 & Hp & Hpub1 & _).
      destruct (IH (extend e1 s)) as (hs & e2 & Hr & Hpub2 & Hok & Hin).
      exists (Some (Fulfilled x) :: hs), (e1 ++ e2).
      cbn [mapM]. erewrite bind_Return.
      2:{ unfold suppressAt. erewrite bind_Return by exact Hp. reflexivity. }
      erewrite bind_Return by exact Hr.
      rewrite extend_extend, published_app, Hpub1, Hpub2.
      split; [reflexivity|]. split; [reflexivity|]. split.
      * constructor; [discriminate | exact Hok].
      * split; (intros [Hn|Hn]; [discriminate | right; now apply Hin]).
    + destruct (IH s) as (hs & e2 & Hr & Hpub2 & Hok & Hin).
      exists (None :: hs), e2.
      cbn [mapM]. erewrite bind_Return by reflexivity.
      erewrite bind_Return by exact Hr.
      split; [reflexivity|]. split; [exact Hpub2|]. split.
      * constructor; [discriminate | exact Hok].
      * split; intros _; now left.
Qed.

(** The promise of [saveMessage] at a moment: pending as long as one
    publish is, fulfilled with the dispatched message after that. *)
Lemma publishAllAt_spec m arrived s :
  exists r evs,
    publishAllAt m arrived s = (Return r, extend evs s) /\
    published evs = [] /\
    (In None arrived -> r = None) /\
    (~ In None arrived -> r = Some (Fulfilled (setDispatched m))).
Proof.
  destruct (mapM_suppressAt_spec arrived s) as (hs & e1 & H1 & Hpub1 & Hok & Hin).
  destruct (promiseAllAt_handled hs Hok) as (Hpending & Hdone).
  unfold publishAllAt. erewrite bind_Return by exact H1.
  destruct (pending_or_settled arrived) as [Hnone|Hall].
  - exists None, e1. rewrite (Hpending (proj1 Hin Hnone)).
    erewrite bind_Return by reflexivity.
    erewrite bind_Return by reflexivity.
    repeat split; auto. tauto.
  - destruct Hdone as (xs & ->); [tauto|].
    exists (Some (Fulfilled (setDispatched m))), (e1 ++ [EvLog "saveMessage" None]).
    erewrite bind_Return.
    2:{ unfold thenAt. erewrite bind_Return.
        2:{ unfold thenP, callback. erewrite bind_Return by apply log_ok.
            reflexivity. }
        reflexivity. }
    erewrite bind_Return by reflexivity.
    rewrite extend_extend, published_app, Hpub1.
    repeat split; auto. tauto.
Qed.

Lemma mapM_suppress_both ps : forall s,
  exists xs evs,
    mapM suppress ps s = (Return (map Fulfilled xs), extend evs s) /\
    mapM suppressAt (map Some ps) s
    = (Return (map Some (map Fulfilled xs)), extend evs s) /\
    published evs = [] /\ logged evs = rejections ps.
Proof.
  induction ps as [|p r IH]; intros s.
  - exists [], []. now rewrite extend_nil.
  - destruct (suppress_spec p s) as (x & e1 & Hp & Hpub1 & Hlog1).
    destruct (IH (extend e1 s)) as (xs & e2 & Hr & Hr' & Hpub2 & Hlog2).
    exists (x :: xs), (e1 ++ e2).
    cbn [mapM map]. erewrite bind_Return by exact Hp.
    erewrite bind_Return by exact Hr.
    erewrite bind_Return.
    2:{ unfold suppressAt. erewrite bind_Return by exact Hp. reflexivity. }
    erewrite bind_Return by exact Hr'.
    rewrite extend_extend, published_app, logged_app, Hpub1, Hpub2, Hlog1, Hlog2.
    repeat split. now destruct p.
Qed.

(** [publishAll] is the chain at the moment when every publish has
    settled. *)
Lemma publishAll_awaited m qs s :
  exists started evs1 evs2,
    startPublishes m qs s = (Return started, extend evs1 s) /\
    publishAll m qs s
    = (Return (Fulfilled (setDispatched m)), extend (evs1 ++ evs2) s) /\
    publishAllAt m (map Some started) (extend evs1 s)
    = (Return (Some (Fulfilled (setDispatched m))), extend (evs1 ++ evs2) s) /\
    published (evs1 ++ evs2) = qs /\
    Forall2 (fun q p => exists s', p = publishMessage s' m (q_device q) (q_type q))
            qs started /\
    logged (evs1 ++ evs2) = rejections started.
Proof.
  destruct (startPublishes_spec m qs s) as (started & e1 & H1 & Hpub1 & Hlog1 & Hall).
  destruct (mapM_suppress_both started (extend e1 s))
    as (xs & e2 & H2 & H2' & Hpub2 & Hlog2).
  exists started, e1, (e2 ++ [EvLog "saveMessage" None]).
  split; [exact H1|]. split; [|split].
  - unfold publishAll.
    erewrite bind_Return by exact H1.
    erewrite bind_Return by exact H2.
    rewrite promiseAll_fulfilled.
    erewrite bind_Return.
    2:{ unfold thenP, callback. erewrite bind_Return by apply log_ok. reflexivity. }
    erewrite bind_Return by reflexivity.
    cbn [catchP]. unfold ret. now rewrite !extend_extend.
  - unfold publishAllAt.
    erewrite bind_Return by exact H2'.
    rewrite promiseAllAt_settled, promiseAll_fulfilled.
    erewrite bind_Return.
    2:{ unfold thenAt. erewrite bind_Return.
        2:{ unfold thenP, callback. erewrite bind_Return by apply log_ok.
            reflexivity. }
        reflexivity. }
    erewrite bind_Return by reflexivity.
    cbn [catchAt catchP]. erewrite bind_Return by reflexivity.
    unfold ret. now rewrite !extend_extend.
  - rewrite !published_app, !logged_app, Hpub1, Hpub2, Hlog1, Hlog2.
    repeat split; [now rewrite !app_nil_r | exact Hall | now rewrite app_nil_r].
Qed.

End FanOut.

(** C3.  Whatever the outcome of each publish, [saveMessage] publishes to
    every queue of the list, each rejection is caught by a handler that
    logs it and fulfils its promise, and the promise returned is fulfilled
    with the message, its [isDispatched] set to true.  That promise awaits
    every publish: at any moment, whichever publishes have settled and
    whatever their outcomes, it is pending as long as one publish is
    pending, and fulfilled with the dispatched message once none is; the
    run of [publishAll] is the chain at the moment when every publish it
    started has settled.  [Promise.all] itself is fulfilled exactly when
    every promise it is given is fulfilled, with their values in order. *)
Theorem fan_out_isolates_failures `{Platform} (m : message) (qs : list queue)
    (s : state) :
  isGoogleCloud || isAWS = true ->
  (forall p s0, exists x evs,
      suppress p s0 = (Return (Fulfilled x), extend evs s0) /\
      published evs = [] /\ logged evs = rejections [p]) /\
  (exists started evs,
    publishAll m qs s = (Return (Fulfilled (setDispatched m)), extend evs s) /\
    published (trace (extend evs s)) = published (trace s) ++ qs /\
    Forall2 (fun q p => exists s', p = publishMessage s' m (q_device q) (q_type q))
            qs started /\
    logged evs = rejections started /\
    msg_isDispatched (setDispatched m) = VBool true /\
    exists evs1,
      startPublishes m qs s = (Return started, extend evs1 s) /\
      publishAllAt m (map Some started) (extend evs1 s)
      = (Return (Some (Fulfilled (setDispatched m))), extend evs s)) /\
  (forall arrived s0, exists r evs,
      publishAllAt m arrived s0 = (Return r, extend evs s0) /\
      published evs = [] /\
      (In None arrived -> r = None) /\
      (~ In None arrived -> r = Some (Fulfilled (setDispatched m)))) /\
  (forall ps : list (settled payload),
      promiseAllAt (map Some ps) = Some (promiseAll ps) /\
      forall xs, promiseAll ps = Fulfilled xs <-> ps = map Fulfilled xs).
Proof.
  intros cloud. split; [intros p s0; now apply suppress_spec|].
  split; [|split].
  - destruct (publishAll_awaited cloud m qs s)
      as (started & evs1 & evs2 & Hstart & Hrun & Hat & Hpub & Hall & Hlog).
    exists started, (evs1 ++ evs2). rewrite published_extend, Hpub.
    split; [exact Hrun|]. split; [reflexivity|]. split; [exact Hall|].
    split; [exact Hlog|]. split; [reflexivity|].
    exists evs1. split; [exact Hstart | exact Hat].
  - intros arrived s0. now apply publishAllAt_spec.
  - intros ps. split; [apply promiseAllAt_settled|].
    intros xs. apply promiseAll_fulfilled_iff.
Qed.

Lemma fan_out_isolates_failures_witness :
  (exists evs,
    @publishAll googleCloud sampleMessage sampleQueues (stateAt 0 ∅)
    = (Return (Fulfilled (setDispatched sampleMessage)), extend evs (stateAt 0 ∅)) /\
    published (trace (extend evs (stateAt 0 ∅))) = sampleQueues /\
    logged evs = [External "topic not found"]) /\
  fst (@publishAllAt googleCloud sampleMessage
         [Some (Fulfilled VUndefined); None; Some (Rejected (External "topic not found"))]
         (stateAt 0 ∅))
  = Return None.
Proof.
  destruct (proj2 (@fan_out_isolates_failures googleCloud sampleMessage
                     sampleQueues (stateAt 0 ∅) eq_refl))
    as ((started & evs & Hrun & Hpub & Hall & Hlog & _) & Hat & _).
  split.
  - exists evs. split; [exact Hrun|]. split; [exact Hpub|].
    rewrite Hlog.
    inversion Hall as [|? ? ? ? [s1 ->] Hall1]; subst.
    inversion Hall1 as [|? ? ? ? [s2 ->] Hall2]; subst.
    inversion Hall2 as [|? ? ? ? [s3 ->] Hall3]; subst.
    inversion Hall3; subst. reflexivity.
  - destruct (Hat [Some (Fulfilled VUndefined); None;
                   Some (Rejected (External "topic not found"))] (stateAt 0 ∅))
      as (r & evs' & Hrun' & _ & Hpending & _).
    rewrite Hrun'. cbn [fst]. f_equal. apply Hpending. right. left. reflexivity.
Defined.

(** ** The queue selectors *)

(** C9.  On AWS (mode A) the message goes to the single queue
    [{ device: null, type: null }].  On Google Cloud (mode B) the list
    starts with the queue of all devices, then comes the queue of the
    type when [type] is truthy, and last the queue of the device when
    [device] is truthy; neither is there for a null [type] or [device]. *)
Theorem queue_targets `{Platform} (device type : value) :
  (isGoogleCloud = false -> isAWS = true ->
     queues device type = [Queue VNull VNull]) /\
  (isGoogleCloud = true ->
     exists byType byDevice,
       queues device type = Queue (VStr "all") VUndefined :: byType ++ byDevice /\
       byType = (if Js.ToBoolean type then [Queue VUndefined type] else []) /\
       byDevice = (if Js.ToBoolean device then [Queue device VUndefined] else []) /\
       (byType <> [] -> type <> VNull) /\
       (byDevice <> [] -> device <> VNull) /\
       (type = VNull \/ Js.ToBoolean type = true -> (byType <> [] <-> type <> VNull)) /\
       (device = VNull \/ Js.ToBoolean device = true ->
          (byDevice <> [] <-> device <> VNull))).
Proof.
  unfold queues. split.
  - now intros -> ->.
  - intros ->.
    exists (if Js.ToBoolean type then [Queue VUndefined type] else []),
           (if Js.ToBoolean device then [Queue device VUndefined] else []).
    split; [reflexivity|]. split; [reflexivity|]. split; [reflexivity|].
    assert (Hnull : forall v (l : list queue),
              (if Js.ToBoolean v then l else []) <> [] -> v <> VNull).
    { intros v l Hne ->. now apply Hne. }
    split; [apply Hnull|]. split; [apply Hnull|].
    split; (intros Hv; split; [apply Hnull|]);
      intros Hne; destruct Hv as [->|Hv]; try congruence;
      rewrite Hv; discriminate.
Qed.

Lemma queue_targets_witness :
  @queues awsLambda (VStr "1A2345") (VStr "gps") = [Queue VNull VNull] /\
  @queues googleCloud (VStr "1A2345") (VStr "gps") = sampleQueues /\
  @queues googleCloud VNull VNull = [Queue (VStr "all") VUndefined].
Proof.
  split; [|split].
  - apply (proj1 (@queue_targets awsLambda (VStr "1A2345") (VStr "gps")));
      reflexivity.
  - destruct (proj2 (@queue_targets googleCloud (VStr "1A2345") (VStr "gps")) eq_refl)
      as (byType & byDevice & -> & -> & -> & _). reflexivity.
  - destruct (proj2 (@queue_targets googleCloud VNull VNull) eq_refl)
      as (byType & byDevice & -> & -> & -> & _). reflexivity.
Defined.

(** ** The response to Sigfox *)

Lemma badHexDigit_spec c : badHexDigit c = negb (bool_decide (c ∈ hexDigits)).
Proof. destruct c as [[] [] [] [] [] [] [] []]; vm_compute; reflexivity. Qed.

Lemma goodHexDigit_iff c : badHexDigit c = false <-> c ∈ hexDigits.
Proof.
  rewrite badHexDigit_spec, negb_false_iff. apply bool_decide_eq_true.
Qed.

Lemma checkDigits_spec cs s :
  (Forall (fun c => c ∈ hexDigits) cs /\ checkDigits cs s = (Return tt, s)) \/
  (~ Forall (fun c => c ∈ hexDigits) cs /\
   exists c, checkDigits cs s = (Throw (InvalidHexDigit c), s)).
Proof.
  induction cs as [|c r IH]; [left; split; [constructor | reflexivity]|].
  cbn [checkDigits]. destruct (badHexDigit c) eqn:E.
  - right. split.
    + intros Hall. inversion Hall as [|? ? Hc _]; subst.
      apply goodHexDigit_iff in Hc. congruence.
    + exists c. reflexivity.
  - apply goodHexDigit_iff in E. erewrite bind_Return by reflexivity.
    destruct IH as [[Hall Hrun]|[Hbad [c' Hrun]]].
    + left. split; [now constructor | exact Hrun].
    + right. split; [|now exists c'].
      intros Hall. inversion Hall; subst. contradiction.
Qed.

Lemma checkResult_spec result s :
  (validPayload result /\ checkResult result s = (Return tt, s)) \/
  (~ validPayload result /\
   exists e, checkResult result s = (Throw e, s) /\
             isInvalidDownlinkPayload e = true).
Proof.
  unfold checkResult, validPayload. rewrite toLowerCase_length.
  destruct (String.length result =? 16)%nat eqn:E; cbn [negb].
  - apply Nat.eqb_eq in E. erewrite bind_Return by reflexivity.
    destruct (checkDigits_spec (chars (toLowerCase result)) s)
      as [[Hall Hrun]|[Hbad [c Hrun]]].
    + left. now repeat split.
    + right. split; [tauto|]. exists (InvalidHexDigit c). now split.
  - apply Nat.eqb_neq in E. right. split; [tauto|].
    exists (ResultLength result). now split.
Qed.

Lemma getResponseFor_spec result device0 body s :
  getResponseFor result device0 body s
  = if noDownlink (Js.get (objectAt body s) "ack")
    then (Return (Fulfilled {[ responseKey device0 := NoData ]}), s)
    else match checkResult result s with
         | (Return _, _) =>
             (Return (Fulfilled {[ responseKey device0 := DownlinkData result ]}), s)
         | (Throw e, _) => (Throw e, s)
         end.
Proof.
  unfold getResponseFor. erewrite bind_Return by reflexivity.
  fold (noDownlink (Js.get (objectAt body s) "ack")).
  assert (Hkey : Js.ToString (Js.or device0 (VStr "missing_device"))
                 = responseKey device0).
  { unfold Js.or, responseKey. now destruct (Js.ToBoolean device0). }
  rewrite Hkey. destruct (noDownlink _); [reflexivity|].
  destruct (checkResult_spec result s) as [[_ Hrun]|[_ (e & Hrun & _)]].
  - erewrite bind_Return by exact Hrun. now rewrite Hrun.
  - erewrite bind_Throw by exact Hrun. now rewrite Hrun.
Qed.

Lemma validPayload_constant : validPayload "0123456789abcdef".
Proof.
  split; [reflexivity|].
  apply Forall_forall. intros c Hc. exact Hc.
Qed.

(** C4.  The checks of [getResponse] accept a downlink result if and only
    if, lower-cased, it has 16 characters, all of them among [0-9a-f];
    otherwise one of the two payload errors is thrown and no response is
    composed.  A response that carries downlink data carries a result
    that passed the checks. *)
Theorem downlink_payload_validation (result : string) (s : state) :
  (checkResult result s = (Return tt, s) <-> validPayload result) /\
  (~ validPayload result ->
   exists e, checkResult result s = (Throw e, s) /\
             isInvalidDownlinkPayload e = true) /\
  (forall device0 body,
     noDownlink (Js.get (objectAt body s) "ack") = false ->
     (validPayload result ->
      getResponseFor result device0 body s
      = (Return (Fulfilled {[ responseKey device0 := DownlinkData result ]}), s)) /\
     (~ validPayload result ->
      exists e, getResponseFor result device0 body s = (Throw e, s) /\
                isInvalidDownlinkPayload e = true)) /\
  (forall device0 body r s' k x,
     getResponseFor result device0 body s = (Return (Fulfilled r), s') ->
     r !! k = Some (DownlinkData x) ->
     x = result /\ validPayload result).
Proof.
  pose proof (checkResult_spec result s) as Hcheck.
  split; [|split; [|split]].
  - destruct Hcheck as [[Hv Hrun]|[Hv (e & Hrun & _)]]; rewrite Hrun.
    + tauto.
    + split; [discriminate | tauto].
  - intros Hv. destruct Hcheck as [[Hv' _]|[_ He]]; [contradiction | exact He].
  - intros device0 body Hack. rewrite getResponseFor_spec, Hack.
    destruct Hcheck as [[Hv Hrun]|[Hv (e & Hrun & He)]]; rewrite Hrun.
    + split; [reflexivity | contradiction].
    + split; [contradiction|]. intros _. now exists e.
  - intros device0 body r s' k x. rewrite getResponseFor_spec.
    destruct (noDownlink _).
    + intros [= <- <-] Hk. apply lookup_singleton_Some in Hk.
      destruct Hk as [_ Hk]. discriminate.
    + destruct Hcheck as [[Hv Hrun]|[Hv (e & Hrun & He)]]; rewrite Hrun.
      * intros [= <- <-] Hk. apply lookup_singleton_Some in Hk.
        destruct Hk as [_ [= <-]]. now split.
      * discriminate.
Qed.

Lemma downlink_payload_validation_witness :
  @checkResult "0123456789ABCDEF" (stateAt 0 ∅) = (Return tt, stateAt 0 ∅) /\
  exists e, @checkResult "0123456789abcdeg" (stateAt 0 ∅) = (Throw e, stateAt 0 ∅) /\
            isInvalidDownlinkPayload e = true.
Proof.
  split.
  - apply (proj1 (downlink_payload_validation "0123456789ABCDEF" (stateAt 0 ∅))).
    split; [reflexivity|]. apply Forall_forall. intros c Hc. exact Hc.
  - apply (proj1 (proj2 (downlink_payload_validation "0123456789abcdeg" (stateAt 0 ∅)))).
    intros [_ Hall]. apply Forall_forall with (x := "g"%char) in Hall.
    + apply goodHexDigit_iff in Hall. discriminate.
    + vm_compute. repeat (first [left; reflexivity | right]).
Defined.

Lemma getResponse_returns device0 body s :
  getResponse device0 body s
  = (Return (Fulfilled
       {[ responseKey device0 :=
            if noDownlink (Js.get (objectAt body s) "ack")
            then NoData else DownlinkData "0123456789abcdef" ]}), s).
Proof.
  unfold getResponse. rewrite getResponseFor_spec.
  destruct (noDownlink _); [reflexivity|].
  destruct (checkResult_spec "0123456789abcdef" s)
    as [[_ Hrun]|[Hv _]]; [|destruct (Hv validPayload_constant)].
  now rewrite Hrun.
Qed.

(** C8.  [getResponse] always composes a response, and the response has
    exactly one entry; its key is the device id, or ["missing_device"]
    when the device id is null or empty. *)
Theorem downlink_response_single_entry (device0 : value) (body : loc) (s : state) :
  (exists entry,
     getResponse device0 body s
     = (Return (Fulfilled {[ responseKey device0 := entry ]}), s) /\
     (entry = if noDownlink (Js.get (objectAt body s) "ack")
              then NoData else DownlinkData "0123456789abcdef")) /\
  (forall result r s',
     getResponseFor result device0 body s = (Return (Fulfilled r), s') ->
     size r = 1%nat /\ dom r = {[ responseKey device0 ]}) /\
  (forall d, device0 = VStr d -> d <> "" -> responseKey device0 = d) /\
  (device0 = VNull \/ device0 = VUndefined \/ device0 = VStr "" ->
   responseKey device0 = "missing_device").
Proof.
  split; [|split; [|split]].
  - rewrite getResponse_returns. now eexists.
  - intros result r s'. rewrite getResponseFor_spec.
    destruct (noDownlink _).
    + intros [= <- <-]. now rewrite map_size_singleton, dom_singleton_L.
    + destruct (checkResult result s) as [[[]|e] s0]; [|discriminate].
      intros [= <- <-]. now rewrite map_size_singleton, dom_singleton_L.
  - intros d -> Hd. destruct d; [congruence | reflexivity].
  - intros [->|[->| ->]]; reflexivity.
Qed.

Lemma downlink_response_single_entry_witness :
  getResponse (VStr "1A2345") 1 testEvent
  = (Return (Fulfilled {[ "1A2345" := NoData ]}), testEvent) /\
  responseKey VNull = "missing_device".
Proof.
  split.
  - destruct (proj1 (downlink_response_single_entry (VStr "1A2345") 1 testEvent))
      as (entry & Hrun & ->). exact Hrun.
  - apply (proj2 (proj2 (proj2 (downlink_response_single_entry VNull 1 testEvent)))).
    now left.
Defined.

(** ** [task] *)

Section Task.
Context {platform : Platform}.

Lemma saveMessage_no_cloud query device type body rootTraceId s :
  isGoogleCloud || isAWS = false ->
  saveMessage query device type body rootTraceId s = (Throw TypeError, s).
Proof.
  intros Hno. unfold saveMessage, log.
  erewrite bind_Throw; [reflexivity|].
  erewrite bind_Throw; [reflexivity|].
  unfold scloud. now rewrite Hno.
Qed.

(** What follows [saveMessage] in [task] publishes nothing and ends
    with the message returned by [saveMessage]. *)
Lemma task_after_save (device : value) (body0 body : loc) (m : message) s :
  isGoogleCloud || isAWS = true ->
  exists evs,
    (p ← thenP (Fulfilled m) (fun _ =>
           r ← getResponse device body0;
           ret match r with
               | Fulfilled response => Fulfilled (PResponse response)
               | Rejected e => Rejected e
               end);
     p ← catchP p dumpError;
     p ← thenP p (fun _ => log "result" None;; ret (Fulfilled tt));
     p ← thenP p (fun _ =>
           scloud;;
           ended ← (fun s => (Return (endTask s), s));
           emit EvEndTask;;
           catchP match ended with
                  | Fulfilled v => Fulfilled (PValue v)
                  | Rejected e => Rejected e
                  end dumpError);
     p ← thenP p (fun response =>
           SigfoxAws.respond (VNum (Int 204)) response;; ret (Fulfilled tt));
     thenP p (fun _ => ret (Fulfilled (Some m)))) s
    = (Return (Fulfilled (Some m)), extend evs s) /\
    published evs = [].
Proof.
  intros cloud.
  erewrite bind_Return.
  2:{ unfold thenP, callback.
      erewrite bind_Return by apply getResponse_returns. reflexivity. }
  erewrite bind_Return by reflexivity.
  erewrite bind_Return.
  2:{ unfold thenP, callback.
      erewrite bind_Return by apply (log_ok cloud). reflexivity. }
  set (s1 := extend [EvLog "result" None] s).
  destruct (endTask s1) as [v|e] eqn:Hend.
  - exists [EvLog "result" None; EvEndTask;
            EvDone (SigfoxAws.done None (PValue v) (VNum (Int 204)))].
    erewrite bind_Return.
    2:{ unfold thenP, callback.
        erewrite bind_Return by apply (scloud_ok cloud).
        erewrite bind_Return by reflexivity.
        erewrite bind_Return by reflexivity.
        rewrite Hend. reflexivity. }
    erewrite bind_Return by reflexivity.
    split; [|reflexivity].
    cbn [thenP]. unfold callback, ret, s1, extend. cbn [heap trace clock ticks].
    now rewrite <- !app_assoc.
  - exists [EvLog "result" None; EvEndTask; EvDumpError e;
            EvDone (SigfoxAws.done None (PError e) (VNum (Int 204)))].
    erewrite bind_Return.
    2:{ unfold thenP, callback.
        erewrite bind_Return by apply (scloud_ok cloud).
        erewrite bind_Return by reflexivity.
        erewrite bind_Return by reflexivity.
        rewrite Hend. cbn [catchP]. unfold callback.
        rewrite (dumpError_ok cloud). reflexivity. }
    erewrite bind_Return by reflexivity.
    split; [|reflexivity].
    cbn [thenP]. unfold callback, ret, s1, extend. cbn [heap trace clock ticks].
    now rewrite <- !app_assoc.
Qed.

(** The two ways [task] can go: the freshness test throws, and [task]
    throws the same error from the same state; or it passes, and the
    message is published to every queue of [queues]. *)
Lemma task_run query device body0 msg s :
  let body := fresh (dom (heap s)) in
  let s1 := setHeap (<[body := parsedBody (objectAt body0 s)]> (heap s)) s in
  (forall e s2, checkAge body s1 = (Throw e, s2) ->
                task query device body0 msg s = (Throw e, s2)) /\
  (forall s2, checkAge body s1 = (Return tt, s2) ->
              isGoogleCloud || isAWS = false ->
              task query device body0 msg s = (Throw TypeError, s2)) /\
  (forall s2, checkAge body s1 = (Return tt, s2) ->
              isGoogleCloud || isAWS = true ->
              exists m evs,
                task query device body0 msg s
                = (Return (Fulfilled (Some (setDispatched m))), extend evs s2) /\
                published evs = queues device (msg_type msg)).
Proof.
  intros body s1. unfold task.
  erewrite bind_Return by apply parseSIGFOXMessage_spec.
  fold body s1. split; [|split].
  - intros e s2 Hage. now erewrite bind_Throw by exact Hage.
  - intros s2 Hage Hno. erewrite bind_Return by exact Hage.
    erewrite bind_Throw; [reflexivity|]. now apply saveMessage_no_cloud.
  - intros s2 Hage cloud. erewrite bind_Return by exact Hage.
    destruct (saveMessage_spec cloud query device (msg_type msg) body
                (msg_rootTraceId msg) s2) as (m & e1 & Hsave & Hpub).
    erewrite bind_Return by exact Hsave. cbv zeta.
    destruct (task_after_save device body0 body (setDispatched m)
                (extend e1 s2) cloud) as (e2 & Htail & Hpub2).
    exists m, (e1 ++ e2). rewrite Htail, extend_extend, published_app, Hpub, Hpub2.
    split; [reflexivity | apply app_nil_r].
Qed.

End Task.

Section Guarded.
Context {platform : Platform}.

(** The state in which [task] applies its freshness test. *)
Lemma checkAge_after_parse body0 s :
  let body := fresh (dom (heap s)) in
  let s1 := setHeap (<[body := parsedBody (objectAt body0 s)]> (heap s)) s in
  Js.get (objectAt body s1) "baseStationTime"
    = Js.get (parsedBody (objectAt body0 s)) "baseStationTime" /\
  clock s1 (ticks s1) = clock s (ticks s) /\
  trace s1 = trace s.
Proof. intros body s1. unfold s1. now rewrite objectAt_setHeap. Qed.

Lemma task_rejects query device body0 msg s z :
  isAWS = true ->
  parsedBody (objectAt body0 s) !! "baseStationTime" = Some (VNum (Int z)) ->
  z <> 0 -> Z.abs z < 10 ^ 21 ->
  300000 < clock s (ticks s) - z * 1000 ->
  exists s',
    task query device body0 msg s
    = (Throw (TooOld (Int (clock s (ticks s) - z * 1000))), s') /\
    published (trace s') = published (trace s).
Proof.
  intros Haws Hbst Hz Hrange Hold.
  destruct (task_run query device body0 msg s) as (Hthrow & _).
  destruct (checkAge_after_parse body0 s) as (Hget & Hclock & Htrace).
  cbv zeta in *.
  eexists. split.
  - apply Hthrow. rewrite checkAge_spec. cbv zeta.
    rewrite Hget, (get_lookup _ _ _ Hbst), Haws, Hclock.
    replace (Js.ToBoolean (VNum (Int z))) with true
      by (symmetry; apply negb_true_iff, Z.eqb_neq, Hz).
    cbn [andb]. rewrite (ageAt_Int _ z Hrange), gt_Int.
    rewrite (proj2 (Z.ltb_lt _ _) Hold). reflexivity.
  - rewrite published_extend. cbn [tick trace published].
    rewrite Htrace. apply app_nil_r.
Qed.

Lemma task_throws_before_publish query device body0 msg s e s' :
  task query device body0 msg s = (Throw e, s') ->
  published (trace s') = published (trace s).
Proof.
  destruct (task_run query device body0 msg s) as (Hthrow & Hno & Hok).
  destruct (checkAge_after_parse body0 s) as (_ & _ & Htrace).
  cbv zeta in *.
  set (b := fresh (dom (heap s))) in *.
  set (s1 := setHeap _ s) in *.
  assert (Hpub : forall r s2, checkAge b s1 = (r, s2) ->
                              published (trace s2) = published (trace s)).
  { intros r s2. rewrite checkAge_spec. cbv zeta.
    destruct (isAWS && _); [destruct (JsNumber.gt _ _)|];
      intros [= <- <-]; rewrite ?published_extend; cbn [tick trace published];
      rewrite Htrace, ?app_nil_r; reflexivity. }
  destruct (checkAge b s1) as [[[]|e0] s2] eqn:Hage.
  - destruct (isGoogleCloud || isAWS) eqn:Hcloud.
    + destruct (Hok s2 eq_refl eq_refl) as (m & evs & Hrun & _).
      rewrite Hrun. discriminate.
    + rewrite (Hno s2 eq_refl eq_refl). intros [= <- <-]. exact (Hpub _ _ eq_refl).
  - rewrite (Hthrow e0 s2 eq_refl). intros [= <- <-]. exact (Hpub _ _ eq_refl).
Qed.

Lemma task_accepts query device body0 msg s :
  isGoogleCloud || isAWS = true ->
  isAWS && Js.ToBoolean (Js.get (parsedBody (objectAt body0 s)) "baseStationTime")
    = false ->
  exists m s',
    task query device body0 msg s
    = (Return (Fulfilled (Some (setDispatched m))), s') /\
    published (trace s') = published (trace s) ++ queues device (msg_type msg).
Proof.
  intros cloud Hskip.
  destruct (task_run query device body0 msg s) as (_ & _ & Hok).
  destruct (checkAge_after_parse body0 s) as (Hget & _ & Htrace).
  cbv zeta in *.
  edestruct Hok as (m & evs & Hrun & Hpub); [|exact cloud|].
  - rewrite checkAge_spec. cbv zeta. rewrite Hget, Hskip. reflexivity.
  - exists m. eexists. split; [exact Hrun|].
    now rewrite published_extend, Htrace, Hpub.
Qed.

End Guarded.

(** ** [main] *)

Section Main.
Context {platform : Platform}.

Lemma lookup_parsed_time_string (o : obj) t z :
  Js.get o "time" = VStr t -> JsNumber.parseInt t = Int z ->
  parsedBody o !! "baseStationTime" = Some (VNum (Int z)).
Proof.
  intros Ht Hz. rewrite lookup_parsed_baseStationTime, Ht.
  destruct t as [|c r]; [vm_compute in Hz; discriminate Hz|].
  cbn [Js.ToBoolean]. unfold Js.parseInt. cbn [Js.ToString]. now rewrite Hz.
Qed.

Lemma get_union_l (o1 o2 : obj) k v :
  v <> VUndefined -> Js.get o1 k = v -> Js.get (o1 ∪ o2) k = v.
Proof.
  unfold Js.get. intros Hv H1.
  destruct (o1 !! k) as [v1|] eqn:E; simpl in H1; [|congruence].
  now rewrite (lookup_union_Some_l _ _ _ _ E).
Qed.

Lemma emit_run e s : emit e s = (Return tt, extend [e] s).
Proof. reflexivity. Qed.

Lemma dateNow_run s : dateNow s = (Return (clock s (ticks s)), tick s).
Proof. reflexivity. Qed.

Lemma newObject_run o s :
  newObject o s
  = (Return (fresh (dom (heap s))),
     setHeap (<[fresh (dom (heap s)) := o]> (heap s)) s).
Proof. reflexivity. Qed.

Lemma objectAt_extend l evs s : objectAt l (extend evs s) = objectAt l s.
Proof. reflexivity. Qed.

(** A stale message makes [main] itself throw: the error of [task]
    is not caught, and nothing has been published. *)
Lemma main_rejects_stale (l : loc) query s t z d :
  isAWS = true ->
  Js.get (objectAt l s) "time" = VStr t ->
  JsNumber.parseInt t = Int z -> z <> 0 -> Z.abs z < 10 ^ 21 ->
  Js.get (objectAt l s) "device" = VStr d -> d <> "" ->
  300000 < clock s (2 + ticks s)%nat - z * 1000 ->
  exists s',
    main (Some l) query s
    = (Throw (TooOld (Int (clock s (2 + ticks s)%nat - z * 1000))), s') /\
    published (trace s') = published (trace s).
Proof.
  intros Haws Ht Hz Hz0 Hrange Hd Hd0 Hold.
  assert (cloud : isGoogleCloud || isAWS = true)
    by (rewrite Haws; apply orb_true_r).
  unfold main.
  erewrite bind_Return by apply emit_run.
  erewrite bind_Return by apply (scloud_ok cloud).
  erewrite bind_Return by apply dateNow_run.
  erewrite bind_Return by reflexivity.
  erewrite bind_Return by reflexivity.
  erewrite bind_Return by apply dateNow_run.
  erewrite bind_Return by reflexivity.
  erewrite bind_Return by apply newObject_run.
  erewrite bind_Return by apply getProp_stored.
  erewrite bind_Return.
  2:{ erewrite (get_union_l _ _ _ (VStr d)); [|discriminate|exact Hd].
      now apply mainDevice_string. }
  erewrite bind_Return by apply (log_ok cloud).
  match goal with |- context [mbind _ (task ?q ?dv ?b ?m) ?s3] =>
    destruct (task_rejects q dv b m s3 z Haws) as (s' & Hrun & Hpub)
  end.
  - rewrite objectAt_extend, objectAt_setHeap.
    apply (lookup_parsed_time_string _ t z); [|exact Hz].
    erewrite (get_union_l _ _ _ (VStr t)); [reflexivity|discriminate|exact Ht].
  - exact Hz0.
  - exact Hrange.
  - exact Hold.
  - exists s'. erewrite bind_Throw by exact Hrun. split; [reflexivity|].
    rewrite Hpub. cbn [extend setHeap tick trace]. rewrite !published_app.
    cbn [published]. now rewrite !app_nil_r.
Qed.

Lemma mainDevice_pure v q s : snd (mainDevice v q s) = s.
Proof.
  unfold mainDevice. destruct (_ && _); [now destruct v|].
  destruct q as [q|]; [|reflexivity].
  destruct (Js.ToBoolean _); [now destruct (Js.get q "device") | reflexivity].
Qed.

(** Whenever [main] throws, nothing has been published: it throws when
    no cloud is detected, when the device id cannot be read, or when
    [task] throws. *)
Lemma main_throws_before_publish req_body query s e s' :
  main req_body query s = (Throw e, s') ->
  published (trace s') = published (trace s).
Proof.
  unfold main.
  erewrite bind_Return by apply emit_run.
  destruct (isGoogleCloud || isAWS) eqn:cloud.
  - erewrite bind_Return by apply (scloud_ok cloud).
    erewrite bind_Return by apply dateNow_run.
    erewrite bind_Return by reflexivity.
    erewrite bind_Return by reflexivity.
    erewrite bind_Return by apply dateNow_run.
    erewrite (bind_Return _ _ _
                (match req_body with Some l => objectAt l s | None => ∅ end))
      by (destruct req_body; reflexivity).
    erewrite bind_Return by apply newObject_run.
    erewrite bind_Return by apply getProp_stored.
    match goal with |- context [mbind _ (mainDevice ?v ?q) ?s3] =>
      pose proof (mainDevice_pure v q s3) as Hpure;
      destruct (mainDevice v q s3) as [[device|e0] s3'] eqn:Hdevice
    end; cbn [snd] in Hpure; subst s3'.
    + erewrite bind_Return by exact Hdevice.
      erewrite bind_Return by apply (log_ok cloud).
      match goal with |- context [mbind _ (task ?q ?dv ?b ?m) ?s4] =>
        destruct (task q dv b m s4) as [[p|e1] s5] eqn:Htask
      end.
      * erewrite bind_Return by exact Htask.
        destruct p as [r|e2].
        -- erewrite bind_Return by reflexivity.
           erewrite bind_Return by reflexivity.
           discriminate.
        -- erewrite bind_Return by reflexivity.
           erewrite bind_Return.
           2:{ unfold catchP, callback.
               erewrite bind_Return by apply (dumpError_ok cloud). reflexivity. }
           discriminate.
      * erewrite bind_Throw by exact Htask. intros [= <- <-].
        rewrite (task_throws_before_publish _ _ _ _ _ _ _ Htask).
        cbn [extend setHeap tick trace]. rewrite !published_app.
        cbn [published]. now rewrite !app_nil_r.
    + erewrite bind_Throw by exact Hdevice. intros [= <- <-].
      cbn [extend setHeap tick trace]. rewrite !published_app.
      cbn [published]. now rewrite !app_nil_r.
  - erewrite bind_Throw by (unfold scloud; rewrite cloud; reflexivity).
    intros [= <- <-]. cbn [extend trace]. rewrite published_app.
    cbn [published]. now rewrite app_nil_r.
Qed.

End Main.

(** ** Stale messages *)

(** C5, as the code has it.  On an AWS deployment, a message whose
    [baseStationTime] is a non-zero integer and whose age exceeds 300000
    ms makes [task] throw the [too_old] error, and no publish call has
    been made; [main] throws the same error for a request whose body
    names its device by a non-empty string, which is what lets it reach
    [task].  In every deployment and for every request, when [task] or
    [main] throws, no publish call has been made. *)
Theorem stale_message_rejected_before_publish `{Platform} :
  (forall query device body0 msg s z,
     isAWS = true ->
     parsedBody (objectAt body0 s) !! "baseStationTime" = Some (VNum (Int z)) ->
     z <> 0 -> Z.abs z < 10 ^ 21 ->
     300000 < clock s (ticks s) - z * 1000 ->
     exists s',
       task query device body0 msg s
       = (Throw (TooOld (Int (clock s (ticks s) - z * 1000))), s') /\
       isStaleMessage (TooOld (Int (clock s (ticks s) - z * 1000))) = true /\
       published (trace s') = published (trace s)) /\
  (forall query device body0 msg s e s',
     task query device body0 msg s = (Throw e, s') ->
     published (trace s') = published (trace s)) /\
  (forall l query s t z d,
     isAWS = true ->
     Js.get (objectAt l s) "time" = VStr t ->
     JsNumber.parseInt t = Int z -> z <> 0 -> Z.abs z < 10 ^ 21 ->
     Js.get (objectAt l s) "device" = VStr d -> d <> "" ->
     300000 < clock s (2 + ticks s)%nat - z * 1000 ->
     exists s',
       main (Some l) query s
       = (Throw (TooOld (Int (clock s (2 + ticks s)%nat - z * 1000))), s') /\
       published (trace s') = published (trace s)) /\
  (forall req_body query s e s',
     main req_body query s = (Throw e, s') ->
     published (trace s') = published (trace s)).
Proof.
  split; [|split; [|split]].
  - intros query device body0 msg s z Haws Hbst Hz Hrange Hold.
    destruct (task_rejects query device body0 msg s z Haws Hbst Hz Hrange Hold)
      as (s' & Hrun & Hpub).
    exists s'. now repeat split.
  - intros query device body0 msg s e s'. apply task_throws_before_publish.
  - intros l query s t z d. apply main_rejects_stale.
  - intros req_body query s e s'. apply main_throws_before_publish.
Qed.

Lemma stale_message_rejected_before_publish_witness :
  (exists s',
    @main awsLambda (Some 1%positive) None staleEvent
    = (Throw (TooOld (Int 511714827000)), s') /\
    published (trace s') = []) /\
  published (trace (snd (@main awsLambda None None (stateAt 1511714827000 ∅)))) = [].
Proof.
  split.
  - refine (proj1 (proj2 (proj2 (@stale_message_rejected_before_publish awsLambda)))
              1%positive None staleEvent "1000000000" 1000000000 "1A2345"
              _ _ _ _ _ _ _ _);
      try reflexivity; discriminate.
  - refine (proj2 (proj2 (proj2 (@stale_message_rejected_before_publish awsLambda)))
              None None (stateAt 1511714827000 ∅) TypeError _ _).
    vm_compute. reflexivity.
Defined.

(** C5 fails off AWS: on Google Cloud the same message is published. *)
Lemma stale_message_published_off_aws :
  300000 < 1511714827000 - 1000000000 * 1000 /\
  (exists m, fst (@main googleCloud (Some 1%positive) None staleEvent)
             = Return (Fulfilled (Some m))) /\
  published (trace (snd (@main googleCloud (Some 1%positive) None staleEvent)))
  = [Queue (VStr "all") VUndefined; Queue (VStr "1A2345") VUndefined].
Proof.
  split; [reflexivity|]. split.
  - eexists. vm_compute. reflexivity.
  - vm_compute. reflexivity.
Qed.

(** ** A time that does not parse *)

Lemma ageAt_NaN now bst :
  Js.parseInt bst = NaN -> JsNumber.gt (ageAt now bst) (Int 300000) = false.
Proof. intros Hnan. unfold ageAt. now rewrite Hnan. Qed.

(** C10, as the code has it.  When [time] is a non-empty string that
    [parseInt] does not read, [baseStationTime] is [NaN]; [NaN] is falsy,
    so the freshness test is skipped, and the comparison [age > 300000]
    would be false at any time; [task] publishes the message to every
    queue, whatever the clock says. *)
Theorem unparsable_time_never_stale `{Platform}
    query device (body0 : loc) msg (s : state) (t : string) :
  isGoogleCloud || isAWS = true ->
  Js.get (objectAt body0 s) "time" = VStr t ->
  JsNumber.parseInt t = NaN ->
  t <> "" ->
  parsedBody (objectAt body0 s) !! "baseStationTime" = Some (VNum NaN) /\
  Js.ToBoolean (VNum NaN) = false /\
  (forall now, JsNumber.gt (ageAt now (VNum NaN)) (Int 300000) = false) /\
  exists m s',
    task query device body0 msg s
    = (Return (Fulfilled (Some (setDispatched m))), s') /\
    published (trace s') = published (trace s) ++ queues device (msg_type msg).
Proof.
  intros cloud Ht Hnan Hne.
  assert (Hbst : parsedBody (objectAt body0 s) !! "baseStationTime"
                 = Some (VNum NaN)).
  { rewrite lookup_parsed_baseStationTime, Ht.
    destruct t as [|c r]; [congruence|].
    cbn [Js.ToBoolean]. unfold Js.parseInt. cbn [Js.ToString]. now rewrite Hnan. }
  split; [exact Hbst|]. split; [reflexivity|].
  split; [intros now; now apply ageAt_NaN|].
  apply task_accepts; [exact cloud|].
  rewrite (get_lookup _ _ _ Hbst). apply andb_false_r.
Qed.

Lemma unparsable_time_never_stale_witness :
  exists m s',
    @task awsLambda None (VStr "1A2345") 1%positive sampleMessage garbledEvent
    = (Return (Fulfilled (Some (setDispatched m))), s') /\
    published (trace s') = [Queue VNull VNull].
Proof.
  destruct (@unparsable_time_never_stale awsLambda None (VStr "1A2345")
              1%positive sampleMessage garbledEvent "yesterday")
    as (_ & _ & _ & m & s' & Hrun & Hpub);
    [reflexivity | reflexivity | reflexivity | discriminate |].
  exists m, s'. split; [exact Hrun | exact Hpub].
Defined.

(** C10 fails on the empty string: [parseInt] does not read it, yet no
    [baseStationTime] is derived from it, and the key [time] stays. *)
Lemma empty_time_gives_no_baseStationTime :
  JsNumber.parseInt "" = NaN /\
  exists body s',
    parseSIGFOXMessage 1 emptyTimeEvent = (Return body, s') /\
    objectAt body s' !! "baseStationTime" = None /\
    Js.get (objectAt body s') "baseStationTime" <> VNum NaN.
Proof.
  split; [reflexivity|].
  eexists _, _. split; [apply parseSIGFOXMessage_spec|].
  rewrite objectAt_setHeap, lookup_parsed_baseStationTime.
  split; [reflexivity|].
  unfold Js.get. rewrite lookup_parsed_baseStationTime. discriminate.
Qed.

(** ** End to end *)

(** The test event of the source, received on AWS one minute after its
    base station time: one publish, to the queue [sigfox.received], and
    one response, of status 204. *)
Example test_event_on_aws :
  (exists m, fst (@main awsLambda (Some 1%positive) None testEvent)
             = Return (Fulfilled (Some m)) /\
             msg_isDispatched m = VBool true /\
             msg_device m = VStr "1A2345") /\
  published (trace (snd (@main awsLambda (Some 1%positive) None testEvent)))
  = [Queue VNull VNull] /\
  map statusCode (responses (trace (snd (@main awsLambda (Some 1%positive) None testEvent))))
  = [VNum (Int 204)].
Proof.
  split; [|split].
  - eexists. split; [vm_compute; reflexivity|]. split; reflexivity.
  - vm_compute. reflexivity.
  - vm_compute. reflexivity.
Qed.

(** The body of the test event once normalized, as the log excerpt in
    [src/index.js] shows it. *)
Example test_body_normalized :
  exists body s',
    parseSIGFOXMessage 1 testEvent = (Return body, s') /\
    objectAt body s'
    = list_to_map
        [("device", VStr "1A2345"); ("data", VStr "b0513801a421f0019405a500");
         ("duplicate", VBool false); ("snr", VNum (Fin 1886 2));
         ("station", VStr "1D44"); ("avgSnr", VNum (Fin 1554 2));
         ("lat", VNum (Int 1)); ("lng", VNum (Int 104));
         ("rssi", VNum (Int (-123))); ("seqNumber", VNum (Int 1508));
         ("ack", VBool false); ("longPolling", VBool false);
         ("timestamp", VStr "1511714827000");
         ("baseStationTime", VNum (Int 1511714827))] /\
    objectAt 1 s' = testBody.
Proof.
  eexists _, _. split; [apply parseSIGFOXMessage_spec|].
  rewrite objectAt_setHeap. split; [vm_compute; reflexivity | reflexivity].
Qed.
